(** * strands_agents_builder/strands.py: the command-line front end

    A shallow embedding of [strands.py] (module initialisation and [main]).

    Conventions of the embedding.
    - A Python [str] is a [string]; its characters are read as the code
      points 0..255, and [lower], [strip] and [encode] follow CPython on
      those code points.
    - [os.environ] is a finite map from names to values.
    - Calls into the agent framework, the tool plug-ins and the helper
      modules of the package are external: each one is recorded as an
      [event] and its outcome (a value, or a raised exception) is read
      from an [Oracle].  [print], [logging.debug], [setup_debug_logging],
      [uuid.uuid4] and the two [render_*] helpers are recorded as events
      that return.
    - [main] is given the arguments as [argparse] returns them.  The
      [while True:] loop is run over a script, a finite list of oracles,
      one per iteration; a run whose script is used up while the loop is
      still going ends [AwaitingInput]. *)

From Stdlib Require Import Ascii NArith Lia.
From stdpp Require Import base strings list gmap pretty.

Open Scope N_scope.

(** ** Python strings *)

Module PyStr.

Definition ord (c : ascii) : N := N_of_ascii c.

(** [str.isspace] on one character (code points below 256). *)
Definition isspace (c : ascii) : bool :=
  let n := ord c in
  ((9 <=? n) && (n <=? 13)) || ((28 <=? n) && (n <=? 32))
  || (n =? 133) || (n =? 160).

(** [str.lower] on one character: A-Z, and the Latin-1 capitals
    U+00C0..U+00DE without the multiplication sign U+00D7. *)
Definition lower_char (c : ascii) : ascii :=
  let n := ord c in
  if ((65 <=? n) && (n <=? 90))
     || ((192 <=? n) && (n <=? 222) && negb (n =? 215))
  then ascii_of_N (n + 32) else c.

Fixpoint lower (s : string) : string :=
  match s with
  | EmptyString => EmptyString
  | String c r => String (lower_char c) (lower r)
  end.

(** [s.startswith(p)] *)
Fixpoint startswith (p s : string) : bool :=
  match p, s with
  | EmptyString, _ => true
  | String a p', String b s' => if Ascii.eqb a b then startswith p' s' else false
  | String _ _, EmptyString => false
  end.

(** [s[1:]] *)
Definition from1 (s : string) : string :=
  match s with
  | EmptyString => EmptyString
  | String _ r => r
  end.

Fixpoint lstrip (s : string) : string :=
  match s with
  | EmptyString => EmptyString
  | String c r => if isspace c then lstrip r else s
  end.

Fixpoint rstrip (s : string) : string :=
  match s with
  | EmptyString => EmptyString
  | String c r =>
      match rstrip r with
      | EmptyString => if isspace c then EmptyString else String c EmptyString
      | r' => String c r'
      end
  end.

(** [s.strip()] *)
Definition strip (s : string) : string := rstrip (lstrip s).

(** [sep.join(l)] *)
Fixpoint join (sep : string) (l : list string) : string :=
  match l with
  | [] => ""
  | [x] => x
  | x :: r => x +:+ sep +:+ join sep r
  end.

(** Truth value of a string: non-empty. *)
Definition truthy (s : string) : bool :=
  match s with EmptyString => false | _ => true end.

(** Truth value of an [Optional[str]]: neither [None] nor empty. *)
Definition truthy_opt (o : option string) : bool :=
  match o with Some s => truthy s | None => false end.

(** [a or b] on [Optional[str]]. *)
Definition or_opt (a b : option string) : option string :=
  if truthy_opt a then a else b.

(** [str(x)] and the f-string rendering of an [Optional[str]]. *)
Definition str_opt (o : option string) : string :=
  match o with Some s => s | None => "None" end.

(** [s.encode()]: UTF-8; a code point in 128..255 takes two bytes. *)
Fixpoint encode (s : string) : list N :=
  match s with
  | EmptyString => []
  | String c r =>
      let n := ord c in
      if n <? 128 then n :: encode r
      else (192 + n / 64) :: (128 + n mod 64) :: encode r
  end.

End PyStr.

(** ** base64.b64encode *)

Module Base64.

Definition alphabet : string :=
  "ABCDEFGHIJKLMNOPQRSTUVWXYZabcdefghijklmnopqrstuvwxyz0123456789+/".

Definition digit (i : N) : ascii :=
  match String.get (N.to_nat i) alphabet with
  | Some c => c
  | None => "="%char
  end.

(** The encoded text, already decoded to a [str] ([.decode()] of an
    ASCII byte string). *)
Fixpoint b64encode (bs : list N) : string :=
  match bs with
  | [] => ""
  | [a] =>
      String (digit (a / 4)) (String (digit (a mod 4 * 16)) "==")
  | [a; b] =>
      String (digit (a / 4)) (String (digit (a mod 4 * 16 + b / 16))
        (String (digit (b mod 16 * 4)) "="))
  | a :: b :: c :: r =>
      String (digit (a / 4)) (String (digit (a mod 4 * 16 + b / 16))
        (String (digit (b mod 16 * 4 + c / 64)) (String (digit (c mod 64))
          (b64encode r))))
  end.

End Base64.

(** ** Module initialisation (lines 62-75): the telemetry variables *)

Abbreviation environ := (gmap string string).

Definition otel_endpoint (env : environ) : string :=
  PyStr.str_opt (env !! "LANGFUSE_HOST") +:+ "/api/public/otel/v1/traces".

Definition auth_token (env : environ) : string :=
  Base64.b64encode
    (PyStr.encode (PyStr.str_opt (env !! "LANGFUSE_PUBLIC_KEY") +:+ ":"
                   +:+ PyStr.str_opt (env !! "LANGFUSE_SECRET_KEY"))).

(** The assignments to [os.environ] made while the module is loaded, in
    order. *)
Definition environ_writes (env : environ) : list (string * string) :=
  let otel_host := env !! "LANGFUSE_HOST" in
  (if PyStr.truthy_opt otel_host then
     [ ("OTEL_EXPORTER_OTLP_ENDPOINT", otel_endpoint env);
       ("OTEL_EXPORTER_OTLP_HEADERS", "Authorization=Basic " +:+ auth_token env) ]
   else [])
  ++ [ ("STRANDS_TOOL_CONSOLE_MODE", "enabled") ].

(** The environment once the module is loaded. *)
Definition module_init (env : environ) : environ :=
  foldl (λ m kv, <[kv.1 := kv.2]> m) env (environ_writes env).

Close Scope N_scope.

(** ** The tools imported by the module (lines 16-41 and 50-54) *)

Module Tool.

Inductive t :=
| agent_graph | calculator | editor | environment | file_read | file_write
| generate_image | http_request | image_reader | journal | load_tool
| memory | nova_reels | python_repl | retrieve | shell | slack | speak
| stop | swarm | think | use_aws | use_llm | workflow
| store_in_kb | strand | welcome.

#[global] Instance eq_dec : EqDecision t.
Proof. solve_decision. Defined.

End Tool.

(** The list bound to [tools] in [main] (lines 128-158), in source order. *)
Definition tools : list Tool.t :=
  [ Tool.memory; Tool.file_read; Tool.file_write; Tool.shell; Tool.editor;
    Tool.http_request; Tool.python_repl; Tool.calculator; Tool.retrieve;
    Tool.use_aws; Tool.load_tool; Tool.environment; Tool.use_llm; Tool.think;
    Tool.load_tool; Tool.journal; Tool.image_reader; Tool.generate_image;
    Tool.nova_reels; Tool.agent_graph; Tool.swarm; Tool.workflow; Tool.slack;
    Tool.stop; Tool.speak;
    Tool.store_in_kb; Tool.strand; Tool.welcome ].

(** ** Exceptions *)

(** The classes the handlers of [main] tell apart.  [KeyboardInterrupt],
    [SystemExit], [GeneratorExit] and [OtherBaseException] derive from
    [BaseException] only; the others derive from [Exception]. *)
Inductive exc_class :=
| KeyboardInterrupt
| SystemExit
| GeneratorExit
| OtherBaseException (name : string)
| EOFError
| ImportError
| KeyError
| IndexError
| OtherException (name : string).

#[global] Instance exc_class_eq_dec : EqDecision exc_class.
Proof. solve_decision. Defined.

(** An exception object: its class and [str(e)]. *)
Record exn := Exn { exn_class : exc_class; exn_str : string }.

#[global] Instance exn_eq_dec : EqDecision exn.
Proof. solve_decision. Defined.

(** [isinstance(e, Exception)] *)
Definition is_Exception (e : exn) : bool :=
  match exn_class e with
  | EOFError | ImportError | KeyError | IndexError | OtherException _ => true
  | KeyboardInterrupt | SystemExit | GeneratorExit | OtherBaseException _ => false
  end.

(** [isinstance(e, (KeyboardInterrupt, EOFError))] *)
Definition is_interrupt (e : exn) : bool :=
  match exn_class e with
  | KeyboardInterrupt | EOFError => true
  | _ => false
  end.

Inductive result (A : Type) :=
| Ok (a : A)
| Raise (e : exn).
Arguments Ok {A} a.
Arguments Raise {A} e.

(** ** The names bound at module level, and [from module import name] *)

Definition imported_names : list string :=
  [ "argparse"; "base64"; "logging"; "os"; "uuid"; "Agent";
    "agent_graph"; "calculator"; "editor"; "environment"; "file_read";
    "file_write"; "generate_image"; "http_request"; "image_reader";
    "journal"; "load_tool"; "memory"; "nova_reels"; "python_repl";
    "retrieve"; "shell"; "slack"; "speak"; "stop"; "swarm"; "think";
    "use_aws"; "use_llm"; "workflow";
    "get_user_input"; "callback_handler"; "model_utils";
    "load_system_prompt"; "store_conversation_in_kb";
    "render_goodbye_message"; "render_welcome_message";
    "store_in_kb"; "strand"; "welcome" ].

Definition dunder_names : list string :=
  [ "__name__"; "__doc__"; "__package__"; "__loader__"; "__spec__";
    "__file__"; "__cached__"; "__builtins__" ].

(** Every name the module binds once its top-level statements have run in
    environment [env]: [otel_endpoint] and [auth_token] are assigned only
    under [if otel_host:]. *)
Definition module_globals (env : environ) : list string :=
  dunder_names ++ imported_names ++ ["otel_host"]
  ++ (if PyStr.truthy_opt (env !! "LANGFUSE_HOST")
      then ["otel_endpoint"; "auth_token"] else [])
  ++ ["setup_debug_logging"; "main"].

(** [from strands_agents_builder.strands import name]: the attribute is
    looked up in the module; [strands.py] is a plain module, so there is
    no submodule to fall back on. *)
Definition import_from_strands (env : environ) (name : string) : result unit :=
  if decide (name ∈ module_globals env) then Ok ()
  else Raise (Exn ImportError
                ("cannot import name '" +:+ name
                 +:+ "' from 'strands_agents_builder.strands'")).

(** ** External calls and their outcomes *)

(** A tool result: [{"status": ..., "content": [{...}, ...]}]. *)
Record ToolResult := {
  tr_status : string;
  tr_content : list (gmap string string)
}.

(** The calls [main] makes, with the arguments that vary; constant keyword
    arguments ([action="view"], [non_interactive_mode=True],
    [interactive=False], the callback handler and the trace attributes of
    the agent apart from the session id) are left out.
    [StoreConversation] lists the positional arguments of
    [store_conversation_in_kb] after [agent]. *)
Inductive event :=
| LogDebug (fmt : string) (args : list string)
| SetupDebugLogging
| LoadModel (provider config : string)
| LoadSystemPrompt
| Uuid4
| NewAgent (model : string) (tools : list Tool.t) (system_prompt session_id : string)
| ToolRetrieve (text knowledgeBaseId : string)
| ToolWelcome
| ToolShell (command user_message_override : string)
| ToolPythonRepl (code user_message_override : string)
| CallAgent (prompt : string) (system_prompt : option string)
| StoreConversation (args : list string)
| GetUserInput (prompt : string)
| RenderWelcome (text : string)
| RenderGoodbye
| PrintLine (line : string).

#[global] Instance event_eq_dec : EqDecision event.
Proof. solve_decision. Defined.

(** What the outside world answers to the calls of one run of the set-up
    and one-shot code, or of one iteration of the interactive loop. *)
Record Oracle := {
  o_load_model : result string;
  o_load_system_prompt : result string;
  o_uuid4 : string;
  o_new_agent : result unit;
  o_retrieve : result unit;
  o_welcome : result ToolResult;
  o_shell : result unit;
  o_python_repl : result unit;
  o_agent : result string;
  o_store : result unit;
  o_input : result string
}.

(** ** The monad of [main]: a trace of events and a value or an exception *)

Definition M (A : Type) : Type := Oracle → list event * result A.

#[global] Instance M_ret : MRet M := λ A a _, ([], Ok a).

#[global] Instance M_bind : MBind M := λ A B f m o,
  match m o with
  | (t, Ok a) => let '(t', r) := f a o in (t ++ t', r)
  | (t, Raise e) => (t, Raise e)
  end.

Definition raise {A} (e : exn) : M A := λ _, ([], Raise e).

(** A call that returns. *)
Definition emit (ev : event) : M unit := λ _, ([ev], Ok ()).

(** A call whose outcome the oracle decides. *)
Definition call {A} (ev : event) (answer : Oracle → result A) : M A :=
  λ o, ([ev], answer o).

(** [try: m  except C1 as e: h1  except C2 as e: h2 ...]: the first clause
    whose class test accepts the exception runs; an exception no clause
    accepts, or one raised by a handler, propagates. *)
Fixpoint select_clause {A} (cl : list ((exn → bool) * (exn → M A))) (e : exn)
  : option (M A) :=
  match cl with
  | [] => None
  | (accepts, h) :: cl' => if accepts e then Some (h e) else select_clause cl' e
  end.

Definition try_except {A} (m : M A) (cl : list ((exn → bool) * (exn → M A))) : M A :=
  λ o,
    match m o with
    | (t, Ok a) => (t, Ok a)
    | (t, Raise e) =>
        match select_clause cl e with
        | Some h => let '(t', r) := h o in (t ++ t', r)
        | None => (t, Raise e)
        end
    end.

Definition trace {A} (r : list event * A) : list event := r.1.
Definition outcome {A} (r : list event * A) : A := r.2.

(** ** [main] *)

(** The namespace [argparse] returns (lines 89-114). *)
Record Args := {
  query : list string;
  knowledge_base_id : option string;
  model_provider : string;
  model_config : string;
  debug : bool
}.

(** Line 121: [args.knowledge_base_id or os.getenv("STRANDS_KNOWLEDGE_BASE_ID")]. *)
Definition get_knowledge_base_id (args : Args) (env : environ) : option string :=
  PyStr.or_opt (knowledge_base_id args) (env !! "STRANDS_KNOWLEDGE_BASE_ID").

(** [if knowledge_base_id:] *)
Definition kb_used (kb : option string) : bool := PyStr.truthy_opt kb.

Definition kb_str (kb : option string) : string := default "" kb.

(** Lines 116-177: everything before the query is looked at; the value is
    [knowledge_base_id]. *)
Definition setup (args : Args) (env : environ) : M (option string) :=
  (if debug args then emit SetupDebugLogging else mret ());;
  let kb := get_knowledge_base_id args env in
  model ← call (LoadModel (model_provider args) (model_config args)) o_load_model;
  system_prompt ← call LoadSystemPrompt o_load_system_prompt;
  session_id ← call Uuid4 (λ o, Ok (o_uuid4 o));
  call (NewAgent model tools system_prompt session_id) o_new_agent;;
  emit (LogDebug "Agent initialized with %d tools" [pretty (length tools)]);;
  mret kb.

(** Lines 181-192: the one-shot branch. *)
Definition one_shot (args : Args) (kb : option string) : M unit :=
  let query := PyStr.join " " (query args) in
  emit (LogDebug "Processing command line query: %s" [query]);;
  (if kb_used kb then
     emit (LogDebug "Using knowledge base for retrieval: %s" [kb_str kb]);;
     call (ToolRetrieve query (kb_str kb)) o_retrieve
   else mret ());;
  call (CallAgent query None) o_agent;;
  if kb_used kb then call (StoreConversation [query; kb_str kb]) o_store
  else mret ().

(** [welcome_result["content"][0]["text"]] *)
Definition first_text (r : ToolResult) : M string :=
  match tr_content r with
  | [] => raise (Exn IndexError "list index out of range")
  | block :: _ =>
      match block !! "text" with
      | Some text => mret text
      | None => raise (Exn KeyError "'text'")
      end
  end.

Definition nl : string := String (ascii_of_nat 10) "".

Inductive loop_ctl := Continue | Break.

(** Lines 208-221: a line that starts with an exclamation mark. *)
Definition run_shell (user_input : string) : M unit :=
  let shell_command := PyStr.from1 user_input in
  emit (PrintLine ("$ " +:+ shell_command));;
  try_except
    (call (ToolShell shell_command user_input) o_shell;;
     emit (PrintLine ""))
    [(is_Exception,
      λ e, emit (PrintLine ("Shell command execution error: " +:+ exn_str e)))].

(** Lines 225-232: a line that starts with a greater-than sign. *)
Definition run_python (user_input : string) : M unit :=
  let python_code := PyStr.strip (PyStr.from1 user_input) in
  try_except
    (call (ToolPythonRepl python_code user_input) o_python_repl;;
     emit (PrintLine ""))
    [(is_Exception,
      λ e, emit (PrintLine ("Python execution error: " +:+ exn_str e)))].

(** Lines 236-253: the body of [if user_input.strip():]. *)
Definition forward (kb : option string) (user_input : string) : M unit :=
  (if kb_used kb then call (ToolRetrieve user_input (kb_str kb)) o_retrieve
   else mret ());;
  welcome_result ← call ToolWelcome o_welcome;
  base_system_prompt ← call LoadSystemPrompt o_load_system_prompt;
  welcome_text ←
    (if String.eqb (tr_status welcome_result) "success"
     then first_text welcome_result else mret "");
  let combined_system_prompt :=
    base_system_prompt +:+ nl +:+ nl +:+ "Welcome Text Reference:" +:+ nl
    +:+ welcome_text in
  response ← call (CallAgent user_input (Some combined_system_prompt)) o_agent;
  if kb_used kb
  then call (StoreConversation [user_input; response; kb_str kb]) o_store
  else mret ().

(** Lines 203-253: the statements inside the [try] of one iteration.
    [Ok Break] is the [break]; [Ok Continue] is reaching the end of the
    block or a [continue]. *)
Definition try_block (kb : option string) : M loop_ctl :=
  user_input ← call (GetUserInput (nl +:+ "~ ")) o_input;
  if bool_decide (PyStr.lower user_input ∈ ["exit"; "quit"]) then
    emit RenderGoodbye;;
    mret Break
  else if PyStr.startswith "!" user_input then
    run_shell user_input;;
    mret Continue
  else if PyStr.startswith ">" user_input then
    run_python user_input;;
    mret Continue
  else
    (if PyStr.truthy (PyStr.strip user_input) then forward kb user_input
     else mret ());;
    mret Continue.

(** Lines 202-258: one iteration, with the two [except] clauses. *)
Definition loop_body (kb : option string) : M loop_ctl :=
  try_except (try_block kb)
    [ (is_interrupt, λ _, emit RenderGoodbye;; mret Break);
      (is_Exception,
       λ e, emit (PrintLine (nl +:+ "Error: " +:+ exn_str e));; mret Continue) ].

(** How a run stands once the scripted interactions are used up. *)
Inductive run_end :=
| Returned               (* [main] returned *)
| Propagated (e : exn)   (* an exception left [main] *)
| AwaitingInput.         (* the loop is about to start a further iteration *)

(** [while True:] over the iterations the script describes, one oracle
    per iteration. *)
Fixpoint while_true (body : M loop_ctl) (script : list Oracle)
  : list event * run_end :=
  match script with
  | [] => ([], AwaitingInput)
  | o :: script' =>
      match body o with
      | (t, Ok Continue) =>
          let '(t', r) := while_true body script' in (t ++ t', r)
      | (t, Ok Break) => (t, Returned)
      | (t, Raise e) => (t, Propagated e)
      end
  end.

(** Lines 195-200: what precedes the loop in interactive mode. *)
Definition interactive_start : M unit :=
  emit (LogDebug "Starting interactive mode" []);;
  welcome_result ← call ToolWelcome o_welcome;
  if String.eqb (tr_status welcome_result) "success" then
    welcome_text ← first_text welcome_result;
    emit (RenderWelcome welcome_text)
  else mret ().

(** Sequencing a monadic prefix with the rest of a run. *)
Definition and_then {A} (r : list event * result A)
    (k : A → list event * run_end) : list event * run_end :=
  match r with
  | (t, Ok a) => let '(t', e) := k a in (t ++ t', e)
  | (t, Raise e) => (t, Propagated e)
  end.

(** Lines 179-258: [if args.query: ... else: ...]. *)
Definition dispatch (args : Args) (kb : option string)
    (o : Oracle) (script : list Oracle) : list event * run_end :=
  match query args with
  | _ :: _ => and_then (one_shot args kb o) (λ _, ([], Returned))
  | [] =>
      and_then (interactive_start o) (λ _, while_true (loop_body kb) script)
  end.

(** [main()], run with the parsed arguments [args] in environment [env]:
    [o] answers the calls made outside the loop, [script] those of the
    successive iterations. *)
Definition main (args : Args) (env : environ)
    (o : Oracle) (script : list Oracle) : list event * run_end :=
  and_then (setup args env o) (λ kb, dispatch args kb o script).

(** The program: the module's top-level statements, then [main()]. *)
Definition program (args : Args) (env : environ)
    (o : Oracle) (script : list Oracle) : list event * run_end :=
  main args (module_init env) o script.

(** ** Projections of a trace *)

Definition agent_prompts (t : list event) : list string :=
  omap (λ ev, match ev with CallAgent p _ => Some p | _ => None end) t.

Definition shell_commands (t : list event) : list string :=
  omap (λ ev, match ev with ToolShell c _ => Some c | _ => None end) t.

Definition python_codes (t : list event) : list string :=
  omap (λ ev, match ev with ToolPythonRepl c _ => Some c | _ => None end) t.

Definition retrievals (t : list event) : list (string * string) :=
  omap (λ ev, match ev with ToolRetrieve q k => Some (q, k) | _ => None end) t.

Definition stores (t : list event) : list (list string) :=
  omap (λ ev, match ev with StoreConversation a => Some a | _ => None end) t.

Definition input_prompts (t : list event) : list string :=
  omap (λ ev, match ev with GetUserInput p => Some p | _ => None end) t.

Definition agent_tool_lists (t : list event) : list (list Tool.t) :=
  omap (λ ev, match ev with NewAgent _ ts _ _ => Some ts | _ => None end) t.

(** The exception, if any, with which the oracle answers the call that an
    event records. *)
Definition raised_by {A} (r : result A) : option exn :=
  match r with Ok _ => None | Raise e => Some e end.

Definition answer (o : Oracle) (ev : event) : option exn :=
  match ev with
  | LoadModel _ _ => raised_by (o_load_model o)
  | LoadSystemPrompt => raised_by (o_load_system_prompt o)
  | NewAgent _ _ _ _ => raised_by (o_new_agent o)
  | ToolRetrieve _ _ => raised_by (o_retrieve o)
  | ToolWelcome => raised_by (o_welcome o)
  | ToolShell _ _ => raised_by (o_shell o)
  | ToolPythonRepl _ _ => raised_by (o_python_repl o)
  | CallAgent _ _ => raised_by (o_agent o)
  | StoreConversation _ => raised_by (o_store o)
  | GetUserInput _ => raised_by (o_input o)
  | _ => None
  end.

(** [e] is raised by the call recorded as [ev], one of the calls made in
    the trace [t] under oracle [o]. *)
Definition raised_at (o : Oracle) (t : list event) (ev : event) (e : exn) : Prop :=
  ev ∈ t ∧ answer o ev = Some e.

Definition is_direct_tool_run (ev : event) : bool :=
  match ev with
  | ToolShell _ _ | ToolPythonRepl _ _ => true
  | _ => false
  end.

Definition returns {A} (r : result A) : bool :=
  match r with Ok _ => true | Raise _ => false end.

(** The calls of [setup] return. *)
Definition setup_returns (o : Oracle) : bool :=
  returns (o_load_model o) && returns (o_load_system_prompt o)
  && returns (o_new_agent o).

(** The welcome tool returns a result from which the text can be read. *)
Definition welcome_readable (o : Oracle) : bool :=
  match o_welcome o with
  | Ok r =>
      if String.eqb (tr_status r) "success" then
        match tr_content r with
        | block :: _ => bool_decide (is_Some (block !! "text"))
        | [] => false
        end
      else true
  | Raise _ => false
  end.

(** The calls that precede the agent call on the forwarding path return. *)
Definition forwarding_prep_returns (kb : option string) (o : Oracle) : bool :=
  (if kb_used kb then returns (o_retrieve o) else true)
  && welcome_readable o && returns (o_load_system_prompt o).

(** The retrieval that precedes the agent call on the one-shot path
    returns (when a knowledge base is used). *)
Definition retrieval_returns (kb : option string) (o : Oracle) : bool :=
  if kb_used kb then returns (o_retrieve o) else true.

(** ** Reading a trace, continued *)

(** The tool and agent calls recorded in a trace. *)
Definition calls (t : list event) :=
  (shell_commands t, python_codes t, agent_prompts t, retrievals t, stores t).

(** The part of an iteration that follows the exit test. *)
Definition after_exit_test (kb : option string) (s : string) : M unit :=
  if PyStr.startswith "!" s then run_shell s
  else if PyStr.startswith ">" s then run_python s
  else if PyStr.truthy (PyStr.strip s) then forward kb s
  else mret ().

(** How [main] ends after its last block. *)
Definition finish {A} (r : result A) : run_end :=
  match r with Ok _ => Returned | Raise e => Propagated e end.

(** The lines that reach the forwarding block. *)
Definition forwarded (s : string) : bool :=
  negb (bool_decide (PyStr.lower s ∈ ["exit"; "quit"]))
  && negb (PyStr.startswith "!" s) && negb (PyStr.startswith ">" s)
  && PyStr.truthy (PyStr.strip s).

(** What a trace shows of the knowledge-base traffic and of the agent. *)
Inductive kb_item :=
| Retrieved (text kb : string)
| Asked (prompt : string)
| Stored (args : list string).

Definition kb_view (t : list event) : list kb_item :=
  omap (λ ev, match ev with
              | ToolRetrieve q k => Some (Retrieved q k)
              | CallAgent p _ => Some (Asked p)
              | StoreConversation a => Some (Stored a)
              | _ => None
              end) t.

(** The same without the store calls: the retrievals and the questions
    put to the agent. *)
Definition query_view (t : list event) : list kb_item :=
  omap (λ ev, match ev with
              | ToolRetrieve q k => Some (Retrieved q k)
              | CallAgent p _ => Some (Asked p)
              | _ => None
              end) t.

Definition drop_stores (v : list kb_item) : list kb_item :=
  omap (λ i, match i with Stored _ => None | _ => Some i end) v.

(** Retrieval comes first: every query is retrieved from [k], and the
    agent is asked a query only right after the retrieval of that same
    query. *)
Inductive retrieved_first (k : string) : list kb_item → Prop :=
| rf_nil : retrieved_first k []
| rf_retrieved q v :
    retrieved_first k v → retrieved_first k (Retrieved q k :: v)
| rf_asked q v :
    retrieved_first k v → retrieved_first k (Retrieved q k :: Asked q :: v).

(** The order of the traffic of the interactive loop when the knowledge
    base [k] is in use: each forwarded line is first retrieved from [k];
    the agent is asked that line only after its retrieval; a conversation
    is stored only after the agent was asked, and it is made of that
    line, a response and [k]. *)
Inductive kb_discipline (k : string) : list kb_item → Prop :=
| kd_nil : kb_discipline k []
| kd_retrieved q v :
    kb_discipline k v → kb_discipline k (Retrieved q k :: v)
| kd_asked q v :
    kb_discipline k v → kb_discipline k (Retrieved q k :: Asked q :: v)
| kd_stored q r v :
    kb_discipline k v →
    kb_discipline k (Retrieved q k :: Asked q :: Stored [q; r; k] :: v).

(** The knowledge-base traffic of the iterations [ran], one after the
    other. *)
Definition iteration_views (kb : option string) (ran : list Oracle)
  : list kb_item :=
  flat_map (λ o, kb_view (trace (loop_body kb o))) ran.

(** ** Sample oracles, for concrete runs *)

Definition welcome_ok : ToolResult :=
  {| tr_status := "success"; tr_content := [ {["text" := "Welcome"]} ] |}.

(** Everything returns, except what the four arguments say. *)
Definition sample (line : result string) (sh : result unit)
    (rt : result unit) (ag : result string) : Oracle :=
  {| o_load_model := Ok "model";
     o_load_system_prompt := Ok "PROMPT";
     o_uuid4 := "00000000-0000-4000-8000-000000000000";
     o_new_agent := Ok ();
     o_retrieve := rt;
     o_welcome := Ok welcome_ok;
     o_shell := sh;
     o_python_repl := sh;
     o_agent := ag;
     o_store := Ok ();
     o_input := line |}.

Definition typed (line : string) : Oracle :=
  sample (Ok line) (Ok ()) (Ok ()) (Ok "answer").

Definition cli (q : list string) (kb : option string) : Args :=
  {| query := q; knowledge_base_id := kb; model_provider := "bedrock";
     model_config := "{}"; debug := false |}.

(** An [EOFError] out of the shell tool. *)
Definition eof_in_shell : Oracle :=
  sample (Ok "!cat") (Raise (Exn EOFError "EOF when reading a line"))
    (Ok ()) (Ok "answer").

(** [exit()] typed after the python prefix, the tool letting the
    [SystemExit] through. *)
Definition exit_in_python : Oracle :=
  sample (Ok ">exit()") (Raise (Exn SystemExit "")) (Ok ()) (Ok "answer").

(** ** Kinds of events *)

(** The events of [setup] (lines 116-177). *)
Definition is_setup_event (ev : event) : bool :=
  match ev with
  | LogDebug _ _ | SetupDebugLogging | LoadModel _ _ | LoadSystemPrompt
  | Uuid4 | NewAgent _ _ _ _ => true
  | _ => false
  end.

(** The events of the interactive start-up (lines 195-200). *)
Definition is_start_event (ev : event) : bool :=
  match ev with
  | LogDebug _ _ | ToolWelcome | RenderWelcome _ => true
  | _ => false
  end.

(** The events of the one-shot branch (lines 181-192). *)
Definition is_one_shot_event (ev : event) : bool :=
  match ev with
  | LogDebug _ _ | ToolRetrieve _ _ | CallAgent _ _ | StoreConversation _ => true
  | _ => false
  end.

(** The events of the three blocks an input line can be sent to. *)
Definition is_block_event (ev : event) : bool :=
  match ev with
  | PrintLine _ | ToolShell _ _ | ToolPythonRepl _ _ | ToolRetrieve _ _
  | ToolWelcome | LoadSystemPrompt | CallAgent _ _ | StoreConversation _ => true
  | _ => false
  end.

(** The events of an iteration of the loop (lines 202-258). *)
Definition is_loop_event (ev : event) : bool :=
  match ev with
  | GetUserInput _ | RenderGoodbye => true
  | _ => is_block_event ev
  end.

(** The calls made on the agent object: its tools and the agent itself,
    and [store_conversation_in_kb], which is handed the agent. *)
Definition uses_agent (ev : event) : bool :=
  match ev with
  | ToolRetrieve _ _ | ToolWelcome | ToolShell _ _ | ToolPythonRepl _ _
  | CallAgent _ _ | StoreConversation _ => true
  | _ => false
  end.

Definition loaded_models (t : list event) : list (string * string) :=
  omap (λ ev, match ev with LoadModel p c => Some (p, c) | _ => None end) t.

Definition system_prompts (t : list event) : list (option string) :=
  omap (λ ev, match ev with CallAgent _ sp => Some sp | _ => None end) t.

(** * Properties *)

(** ** Tactics *)

Ltac unfold_M :=
  unfold try_except, select_clause, raise, emit, call, mbind, M_bind, mret, M_ret.

Ltac forward_cases kb o :=
  unfold forward, first_text, forwarding_prep_returns, welcome_readable,
    retrieval_returns, returns;
  unfold_M;
  destruct (kb_used kb);
  destruct (o_retrieve o) as [[]|?];
  destruct (o_welcome o) as [[st ct]|?];
  destruct (o_load_system_prompt o) as [?|?];
  cbn [tr_status tr_content];
  try destruct (String.eqb st "success");
  try (destruct ct as [|b ct]; [|destruct (b !! "text")]);
  destruct (o_agent o) as [?|?];
  destruct (o_store o) as [[]|?].

Ltac forward_cases_eq kb o :=
  unfold forward, first_text; unfold_M;
  destruct (kb_used kb);
  destruct (o_retrieve o) as [[]|?] eqn:Hretrieve;
  destruct (o_welcome o) as [[st ct]|?] eqn:Hwelcome;
  destruct (o_load_system_prompt o) as [?|?] eqn:Hprompt;
  cbn [tr_status tr_content];
  try destruct (String.eqb st "success");
  try (destruct ct as [|b ct]; [|destruct (b !! "text")]);
  destruct (o_agent o) as [?|?] eqn:Hagent;
  destruct (o_store o) as [[]|?] eqn:Hstore.

(** Find an event in a trace that is written out. *)
Ltac in_trace :=
  solve [repeat first [apply list_elem_of_here | apply list_elem_of_further]].

(** Split [H : ev ∈ [e1; ...; en]] into its [n] cases. *)
Ltac split_elem H :=
  repeat (apply elem_of_cons in H as [->|H]); [..|by apply elem_of_nil in H].

(** ** The string and base64 operations on sample values *)

Example b64_pk_sk :
  Base64.b64encode (PyStr.encode "pk:sk") = "cGs6c2s=".
Proof. reflexivity. Qed.

Example b64_none_none :
  Base64.b64encode (PyStr.encode "None:None") = "Tm9uZTpOb25l".
Proof. reflexivity. Qed.

Example b64_latin1 :
  Base64.b64encode (PyStr.encode (String (ascii_of_N 233) "")) = "w6k=".
Proof. reflexivity. Qed.

Example strip_ex : PyStr.strip "  a b 	" = "a b".
Proof. reflexivity. Qed.

Example lower_ex : PyStr.lower "ExIt!" = "exit!".
Proof. reflexivity. Qed.

(** ** Facts about the string operations *)

Section StringFacts.

Lemma startswith_char c s :
  PyStr.startswith (String c "") s = true → s = String c (PyStr.from1 s).
Proof.
  destruct s as [|d r]; cbn [PyStr.startswith PyStr.from1]; [done|].
  by destruct (Ascii.eqb_spec c d) as [->|].
Qed.

Lemma lower_cons c r :
  PyStr.lower (String c r) = String (PyStr.lower_char c) (PyStr.lower r).
Proof. reflexivity. Qed.

(** A line whose first character is [!] or [>] is not an exit command. *)
Lemma bang_not_exit s :
  PyStr.startswith "!" s = true → PyStr.lower s ∉ ["exit"; "quit"].
Proof.
  intros ->%startswith_char. rewrite lower_cons, !elem_of_cons, elem_of_nil.
  intros [H|[H|H]]; [discriminate H|discriminate H|done].
Qed.

Lemma gt_not_exit s :
  PyStr.startswith ">" s = true → PyStr.lower s ∉ ["exit"; "quit"].
Proof.
  intros ->%startswith_char. rewrite lower_cons, !elem_of_cons, elem_of_nil.
  intros [H|[H|H]]; [discriminate H|discriminate H|done].
Qed.

Lemma bang_not_gt s :
  PyStr.startswith "!" s = true → PyStr.startswith ">" s = false.
Proof. by intros ->%startswith_char. Qed.

Lemma rstrip_nonspace c r :
  PyStr.isspace c = false → PyStr.rstrip (String c r) ≠ "".
Proof. cbn [PyStr.rstrip]. intros ->. by destruct (PyStr.rstrip r). Qed.

Lemma strip_empty_head c r :
  PyStr.strip (String c r) = "" → PyStr.isspace c = true.
Proof.
  unfold PyStr.strip. cbn [PyStr.lstrip].
  destruct (PyStr.isspace c) eqn:E; [done|].
  intros H. by apply rstrip_nonspace in H.
Qed.

Lemma isspace_char c :
  PyStr.isspace c = true →
  PyStr.lower_char c = c ∧ c ≠ "e"%char ∧ c ≠ "q"%char
  ∧ c ≠ "!"%char ∧ c ≠ ">"%char.
Proof.
  destruct c as [[] [] [] [] [] [] [] []]; vm_compute;
    first [discriminate | intros _; repeat split; discriminate].
Qed.

(** A blank line is no exit command and has neither prefix. *)
Lemma blank_not_exit s :
  PyStr.strip s = "" → PyStr.lower s ∉ ["exit"; "quit"].
Proof.
  destruct s as [|c r].
  { intros _. rewrite !elem_of_cons, elem_of_nil. by intros [H|[H|H]]. }
  intros H%strip_empty_head%isspace_char. destruct H as (Hl & He & Hq & _).
  rewrite lower_cons, Hl, !elem_of_cons, elem_of_nil.
  intros [H|[H|H]]; [| |done]; injection H; congruence.
Qed.

Lemma blank_no_prefix s :
  PyStr.strip s = "" →
  PyStr.startswith "!" s = false ∧ PyStr.startswith ">" s = false.
Proof.
  destruct s as [|c r]; [done|].
  intros H%strip_empty_head%isspace_char. destruct H as (_ & _ & _ & Hb & Hg).
  cbn [PyStr.startswith].
  destruct (Ascii.eqb_spec "!"%char c), (Ascii.eqb_spec ">"%char c);
    split; congruence.
Qed.

Lemma truthy_true s : PyStr.truthy s = true ↔ s ≠ "".
Proof. by destruct s. Qed.

Lemma truthy_opt_true o :
  PyStr.truthy_opt o = true ↔ ∃ s, o = Some s ∧ s ≠ "".
Proof.
  destruct o as [s|]; simpl.
  - rewrite truthy_true. split.
    + intros H. by exists s.
    + by intros (s' & [= <-] & H).
  - split; [done|]. by intros (s & H & _).
Qed.

End StringFacts.

(** ** Unfolding the blocks of [main] *)

Section Blocks.

Implicit Types (kb : option string) (o : Oracle) (s : string).

Lemma run_shell_eq s o :
  run_shell s o =
    match o_shell o with
    | Ok _ =>
        ([PrintLine ("$ " +:+ PyStr.from1 s); ToolShell (PyStr.from1 s) s; PrintLine ""],
         Ok ())
    | Raise e =>
        if is_Exception e then
          ([PrintLine ("$ " +:+ PyStr.from1 s); ToolShell (PyStr.from1 s) s;
            PrintLine ("Shell command execution error: " +:+ exn_str e)], Ok ())
        else
          ([PrintLine ("$ " +:+ PyStr.from1 s); ToolShell (PyStr.from1 s) s], Raise e)
    end.
Proof.
  unfold run_shell. unfold_M.
  destruct (o_shell o) as [[]|e]; [done|]. by destruct (is_Exception e).
Qed.

Lemma run_python_eq s o :
  run_python s o =
    match o_python_repl o with
    | Ok _ =>
        ([ToolPythonRepl (PyStr.strip (PyStr.from1 s)) s; PrintLine ""], Ok ())
    | Raise e =>
        if is_Exception e then
          ([ToolPythonRepl (PyStr.strip (PyStr.from1 s)) s;
            PrintLine ("Python execution error: " +:+ exn_str e)], Ok ())
        else ([ToolPythonRepl (PyStr.strip (PyStr.from1 s)) s], Raise e)
    end.
Proof.
  unfold run_python. unfold_M.
  destruct (o_python_repl o) as [[]|e]; [done|]. by destruct (is_Exception e).
Qed.

Lemma try_block_eq kb o :
  try_block kb o =
    match o_input o with
    | Raise e => ([GetUserInput (nl +:+ "~ ")], Raise e)
    | Ok s =>
        if bool_decide (PyStr.lower s ∈ ["exit"; "quit"]) then
          ([GetUserInput (nl +:+ "~ "); RenderGoodbye], Ok Break)
        else
          match after_exit_test kb s o with
          | (t, Ok _) => (GetUserInput (nl +:+ "~ ") :: t, Ok Continue)
          | (t, Raise e) => (GetUserInput (nl +:+ "~ ") :: t, Raise e)
          end
    end.
Proof.
  unfold try_block, after_exit_test. unfold_M.
  destruct (o_input o) as [s|e]; [|done].
  destruct (bool_decide _); [done|].
  destruct (PyStr.startswith "!" s).
  { destruct (run_shell s o) as [t [[]|e]]; by rewrite ?app_nil_r. }
  destruct (PyStr.startswith ">" s).
  { destruct (run_python s o) as [t [[]|e]]; by rewrite ?app_nil_r. }
  destruct (PyStr.truthy _).
  - destruct (forward kb s o) as [t [[]|e]]; by rewrite ?app_nil_r.
  - done.
Qed.

Lemma loop_body_eq kb o :
  loop_body kb o =
    match try_block kb o with
    | (t, Ok c) => (t, Ok c)
    | (t, Raise e) =>
        if is_interrupt e then (t ++ [RenderGoodbye], Ok Break)
        else if is_Exception e
             then (t ++ [PrintLine (nl +:+ "Error: " +:+ exn_str e)], Ok Continue)
             else (t, Raise e)
    end.
Proof.
  unfold loop_body. unfold_M.
  destruct (try_block kb o) as [t [c|e]]; [done|].
  destruct (is_interrupt e); [done|]. by destruct (is_Exception e).
Qed.

End Blocks.

(** ** The calls made in one iteration *)

Section Iteration.

Implicit Types (kb : option string) (o : Oracle) (s : string).

Lemma calls_app t1 t2 :
  calls (t1 ++ t2) =
    ((calls t1).1.1.1.1 ++ (calls t2).1.1.1.1,
     (calls t1).1.1.1.2 ++ (calls t2).1.1.1.2,
     (calls t1).1.1.2 ++ (calls t2).1.1.2,
     (calls t1).1.2 ++ (calls t2).1.2,
     (calls t1).2 ++ (calls t2).2).
Proof.
  unfold calls, shell_commands, python_codes, agent_prompts, retrievals, stores.
  by rewrite !omap_app.
Qed.

Lemma calls_app_quiet t1 t2 :
  calls t2 = ([], [], [], [], []) → calls (t1 ++ t2) = calls t1.
Proof.
  intros H. rewrite calls_app, H. unfold calls. cbn. by rewrite !app_nil_r.
Qed.

(** The handlers of the outer [try] add no tool or agent call. *)
Lemma loop_body_calls kb o :
  calls (trace (loop_body kb o)) = calls (trace (try_block kb o)).
Proof.
  rewrite loop_body_eq. destruct (try_block kb o) as [t [c|e]]; [done|].
  destruct (is_interrupt e); [by apply calls_app_quiet|].
  destruct (is_Exception e); [by apply calls_app_quiet|done].
Qed.

Lemma try_block_calls kb o s :
  o_input o = Ok s → PyStr.lower s ∉ ["exit"; "quit"] →
  calls (trace (try_block kb o)) = calls (trace (after_exit_test kb s o)).
Proof.
  intros Hi Hx. rewrite try_block_eq, Hi, (bool_decide_eq_false_2 _ Hx).
  by destruct (after_exit_test kb s o) as [t [[]|e]].
Qed.

Lemma run_shell_calls s o :
  calls (trace (run_shell s o)) = ([PyStr.from1 s], [], [], [], []).
Proof.
  rewrite run_shell_eq. destruct (o_shell o) as [[]|e]; [done|].
  by destruct (is_Exception e).
Qed.

Lemma run_python_calls s o :
  calls (trace (run_python s o)) =
    ([], [PyStr.strip (PyStr.from1 s)], [], [], []).
Proof.
  rewrite run_python_eq. destruct (o_python_repl o) as [[]|e]; [done|].
  by destruct (is_Exception e).
Qed.

(** The forwarding block: no direct tool run, at most one agent call,
    which carries the line itself and is reached once the calls before
    it have returned. *)
Lemma forward_calls kb s o :
  let t := trace (forward kb s o) in
  shell_commands t = [] ∧ python_codes t = []
  ∧ (agent_prompts t = [] ∨ agent_prompts t = [s])
  ∧ (forwarding_prep_returns kb o = true → agent_prompts t = [s])
  ∧ length (retrievals t) ≤ 1 ∧ length (stores t) ≤ 1.
Proof.
  forward_cases kb o; cbn; repeat split;
    first [by left | by right | done | lia].
Qed.

End Iteration.

(** ** Exceptions raised during an iteration *)

Section Raising.

Implicit Types (kb : option string) (o : Oracle) (s : string).

(** A call of the forwarding block that raises ends the block with that
    exception. *)
Lemma forward_raise kb s o ev e :
  ev ∈ trace (forward kb s o) → answer o ev = Some e →
  outcome (forward kb s o) = Raise e ∧ is_direct_tool_run ev = false.
Proof.
  forward_cases_eq kb o; cbn; intros Hin Ha; split_elem Hin;
    cbn in Ha; rewrite ?Hretrieve, ?Hwelcome, ?Hprompt, ?Hagent, ?Hstore in Ha;
    cbn in Ha; first [discriminate Ha | by injection Ha as -> ].
Qed.

(** An exception that leaves the forwarding block was raised by one of
    its calls, or by reading the text out of the welcome result. *)
Lemma forward_raised_by kb s o e :
  outcome (forward kb s o) = Raise e →
  (∃ ev, ev ∈ trace (forward kb s o) ∧ answer o ev = Some e
         ∧ is_direct_tool_run ev = false)
  ∨ (is_Exception e = true ∧ is_interrupt e = false).
Proof.
  forward_cases_eq kb o; cbn; intros He; try discriminate He;
    injection He as <-; first [by right | left];
    first
      [ exists (ToolRetrieve s (kb_str kb)); split;
        [in_trace | cbn; rewrite Hretrieve; done]
      | exists ToolWelcome; split; [in_trace | cbn; rewrite Hwelcome; done]
      | exists LoadSystemPrompt; split;
        [in_trace | cbn; rewrite Hprompt; done]
      | eexists (CallAgent s _); split;
        [in_trace | cbn; rewrite Hagent; done]
      | eexists (StoreConversation _); split;
        [in_trace | cbn; rewrite Hstore; done] ].
Qed.

Lemma run_shell_raise s o ev e :
  ev ∈ trace (run_shell s o) → answer o ev = Some e →
  ev = ToolShell (PyStr.from1 s) s ∧ o_shell o = Raise e.
Proof.
  rewrite run_shell_eq. destruct (o_shell o) as [[]|e'] eqn:Hs;
    [|destruct (is_Exception e')];
    cbn; intros Hin Ha; split_elem Hin; cbn in Ha; rewrite ?Hs in Ha;
    cbn in Ha; first [discriminate Ha | by injection Ha as ->].
Qed.

Lemma run_python_raise s o ev e :
  ev ∈ trace (run_python s o) → answer o ev = Some e →
  ev = ToolPythonRepl (PyStr.strip (PyStr.from1 s)) s ∧ o_python_repl o = Raise e.
Proof.
  rewrite run_python_eq. destruct (o_python_repl o) as [[]|e'] eqn:Hs;
    [|destruct (is_Exception e')];
    cbn; intros Hin Ha; split_elem Hin; cbn in Ha; rewrite ?Hs in Ha;
    cbn in Ha; first [discriminate Ha | by injection Ha as ->].
Qed.

(** The handlers of the outer [try] make no call: an exception raised
    during an iteration is raised inside the [try] block. *)
Lemma raised_in_try_block kb o ev e :
  raised_at o (trace (loop_body kb o)) ev e →
  raised_at o (trace (try_block kb o)) ev e.
Proof.
  unfold raised_at. rewrite loop_body_eq.
  destruct (try_block kb o) as [t [c|e']]; [done|].
  destruct (is_interrupt e'); [|destruct (is_Exception e')]; cbn;
    rewrite ?elem_of_app, ?list_elem_of_singleton;
    intros [Hin Ha]; (split; [|done]);
    try (destruct Hin as [Hin| ->]; [done|discriminate Ha]); done.
Qed.

(** How an iteration ends when a call raises [e]:
    - in the shell or python_repl run, an [Exception] is reported by the
      inner handler and the block goes on (to its [continue]), and
      anything else leaves the block;
    - anywhere else, [e] leaves the block. *)
Lemma try_block_raise kb o ev e :
  raised_at o (trace (try_block kb o)) ev e →
  if is_direct_tool_run ev && is_Exception e then
    ∃ t pre,
      try_block kb o = (t ++ [PrintLine (pre +:+ exn_str e)], Ok Continue)
  else outcome (try_block kb o) = Raise e.
Proof.
  unfold raised_at. rewrite try_block_eq.
  destruct (o_input o) as [s|e'] eqn:Hi.
  2:{ cbn. intros [Hin Ha]. split_elem Hin. cbn in Ha. rewrite Hi in Ha.
      by injection Ha as ->. }
  destruct (bool_decide _).
  { cbn. intros [Hin Ha]. split_elem Hin; cbn in Ha;
      rewrite ?Hi in Ha; discriminate Ha. }
  unfold after_exit_test.
  destruct (PyStr.startswith "!" s);
    [|destruct (PyStr.startswith ">" s); [|destruct (PyStr.truthy _)]].
  - destruct (run_shell s o) as [t r] eqn:Hr.
    assert (Hin' : ∀ x, x ∈ GetUserInput (nl +:+ "~ ") :: t →
                        answer o x = Some e → x ∈ trace (run_shell s o)).
    { rewrite Hr. intros x [->|Hx]%elem_of_cons Hx'; [|done].
      cbn in Hx'. rewrite Hi in Hx'. discriminate Hx'. }
    intros [Hin Ha].
    assert (Hin2 : ev ∈ GetUserInput (nl +:+ "~ ") :: t) by by destruct r.
    destruct (run_shell_raise s o ev e (Hin' _ Hin2 Ha) Ha) as [-> Hs].
    rewrite run_shell_eq, Hs in Hr. cbn.
    destruct (is_Exception e); injection Hr as <- <-; cbn; [|done].
    eexists [_; _; _], _. reflexivity.
  - destruct (run_python s o) as [t r] eqn:Hr.
    assert (Hin' : ∀ x, x ∈ GetUserInput (nl +:+ "~ ") :: t →
                        answer o x = Some e → x ∈ trace (run_python s o)).
    { rewrite Hr. intros x [->|Hx]%elem_of_cons Hx'; [|done].
      cbn in Hx'. rewrite Hi in Hx'. discriminate Hx'. }
    intros [Hin Ha].
    assert (Hin2 : ev ∈ GetUserInput (nl +:+ "~ ") :: t) by by destruct r.
    destruct (run_python_raise s o ev e (Hin' _ Hin2 Ha) Ha) as [-> Hs].
    rewrite run_python_eq, Hs in Hr. cbn.
    destruct (is_Exception e); injection Hr as <- <-; cbn; [|done].
    eexists [_; _], _. reflexivity.
  - destruct (forward kb s o) as [t r] eqn:Hr.
    intros [Hin Ha].
    assert (Hin2 : ev ∈ trace (forward kb s o)).
    { rewrite Hr. cbn.
      assert (Hin3 : ev ∈ GetUserInput (nl +:+ "~ ") :: t)
        by by destruct r as [[]|].
      apply elem_of_cons in Hin3 as [->|Hin3]; [|done].
      cbn in Ha. rewrite Hi in Ha. discriminate Ha. }
    destruct (forward_raise kb s o ev e Hin2 Ha) as [Ho ->].
    rewrite Hr in Ho. cbn in Ho. subst r. done.
  - cbn. intros [Hin Ha]. split_elem Hin. cbn in Ha. rewrite Hi in Ha.
    discriminate Ha.
Qed.

End Raising.

(** ** The loop *)

Section Loop.

Implicit Types (kb : option string) (o : Oracle) (s : string).

Lemma while_true_cons (body : M loop_ctl) o script :
  while_true body (o :: script) =
    match body o with
    | (t, Ok Continue) =>
        (t ++ trace (while_true body script), outcome (while_true body script))
    | (t, Ok Break) => (t, Returned)
    | (t, Raise e) => (t, Propagated e)
    end.
Proof.
  cbn [while_true]. destruct (body o) as [t [[]|e]]; [|done|done].
  by destruct (while_true body script).
Qed.

(** A property of traces that holds of every iteration and is kept by
    putting an iteration in front holds of the whole loop. *)
Lemma while_true_trace_ind (P : list event → Prop) (body : M loop_ctl) script :
  P [] →
  (∀ o, P (trace (body o))) →
  (∀ o t, P t → P (trace (body o) ++ t)) →
  P (trace (while_true body script)).
Proof.
  intros Hnil Hone Hcons. induction script as [|o script IH]; [done|].
  rewrite while_true_cons. specialize (Hone o). specialize (Hcons o _ IH).
  by destruct (body o) as [t [[]|e]].
Qed.

(** An iteration begins by reading a line. *)
Lemma loop_body_head kb o :
  ∃ t, trace (loop_body kb o) = GetUserInput (nl +:+ "~ ") :: t.
Proof.
  rewrite loop_body_eq, try_block_eq.
  destruct (o_input o) as [s|e].
  - destruct (bool_decide _); [by eexists|].
    destruct (after_exit_test kb s o) as [t [[]|e]]; [by eexists|].
    destruct (is_interrupt e); [by eexists|]. destruct (is_Exception e); by eexists.
  - destruct (is_interrupt e); [by eexists|]. destruct (is_Exception e); by eexists.
Qed.

Lemma loop_body_no_new_agent kb o :
  agent_tool_lists (trace (loop_body kb o)) = [].
Proof.
  rewrite loop_body_eq, try_block_eq.
  assert (Hend : ∀ t e,
    agent_tool_lists t = [] →
    agent_tool_lists (trace (
        if is_interrupt e then (t ++ [RenderGoodbye], Ok Break)
        else if is_Exception e
             then (t ++ [PrintLine (nl +:+ "Error: " +:+ exn_str e)], Ok Continue)
             else (t, Raise e))) = []).
  { intros t e Ht. destruct (is_interrupt e); [|destruct (is_Exception e)];
      cbn; unfold agent_tool_lists in *; rewrite ?omap_app, ?Ht; done. }
  destruct (o_input o) as [s|e]; [|by apply Hend].
  destruct (bool_decide _); [done|].
  assert (Hmid : agent_tool_lists (trace (after_exit_test kb s o)) = []).
  { unfold after_exit_test.
    destruct (PyStr.startswith "!" s).
    { rewrite run_shell_eq. destruct (o_shell o) as [[]|e]; [done|].
      by destruct (is_Exception e). }
    destruct (PyStr.startswith ">" s).
    { rewrite run_python_eq. destruct (o_python_repl o) as [[]|e]; [done|].
      by destruct (is_Exception e). }
    destruct (PyStr.truthy _); [|done].
    forward_cases kb o; done. }
  destruct (after_exit_test kb s o) as [t [[]|e]]; [done|].
  by apply Hend.
Qed.

End Loop.

(** ** Set-up and the one-shot branch *)

Section OneShot.

Implicit Types (kb : option string) (o : Oracle) (s : string).

Lemma setup_run args env o :
  ∃ t r,
    setup args env o = (t, r)
    ∧ calls t = ([], [], [], [], []) ∧ input_prompts t = []
    ∧ (agent_tool_lists t = [] ∨ agent_tool_lists t = [tools])
    ∧ (if setup_returns o
       then r = Ok (get_knowledge_base_id args env) ∧ agent_tool_lists t = [tools]
       else ∃ e, r = Raise e).
Proof.
  unfold setup, setup_returns, returns. unfold_M.
  destruct (debug args), (o_load_model o), (o_load_system_prompt o),
    (o_new_agent o) as [[]|]; cbn; eexists _, _;
    (split; [reflexivity|]); repeat split; eauto.
Qed.

Lemma one_shot_run args kb o :
  let q := PyStr.join " " (query args) in
  let t := trace (one_shot args kb o) in
  input_prompts t = [] ∧ agent_tool_lists t = []
  ∧ shell_commands t = [] ∧ python_codes t = []
  ∧ (agent_prompts t = [] ∨ agent_prompts t = [q])
  ∧ (retrieval_returns kb o = true → agent_prompts t = [q])
  ∧ (∀ e, retrieval_returns kb o = true → o_agent o = Raise e →
          outcome (one_shot args kb o) = Raise e).
Proof.
  unfold one_shot, retrieval_returns, returns. unfold_M.
  destruct (kb_used kb), (o_retrieve o) as [[]|], (o_agent o),
    (o_store o) as [[]|]; cbn; repeat split; eauto; congruence.
Qed.

Lemma and_then_trace {A} (r : list event * result A) k :
  trace (and_then r k) =
    match r with
    | (t, Ok a) => t ++ trace (k a)
    | (t, Raise _) => t
    end.
Proof.
  destruct r as [t [a|e]]; [|done]. cbn. by destruct (k a).
Qed.

Lemma and_then_outcome {A} (r : list event * result A) k :
  outcome (and_then r k) =
    match r with
    | (_, Ok a) => outcome (k a)
    | (_, Raise e) => Propagated e
    end.
Proof.
  destruct r as [t [a|e]]; [|done]. cbn. by destruct (k a).
Qed.

End OneShot.

Section Program.

Implicit Types (kb : option string) (o : Oracle) (s : string).

(** A run given a query: set-up, then the one-shot branch. *)
Lemma program_one_shot args env o script :
  query args ≠ [] →
  let kb := get_knowledge_base_id args (module_init env) in
  ∃ t0,
    calls t0 = ([], [], [], [], []) ∧ input_prompts t0 = []
    ∧ (agent_tool_lists t0 = [] ∨ agent_tool_lists t0 = [tools])
    ∧ if setup_returns o then
        agent_tool_lists t0 = [tools]
        ∧ program args env o script =
            (t0 ++ trace (one_shot args kb o), finish (outcome (one_shot args kb o)))
      else ∃ e, program args env o script = (t0, Propagated e).
Proof.
  intros Hq kb. unfold program, main.
  destruct (setup_run args (module_init env) o) as (t0 & r & -> & Hc & Hi & Ht & Hr).
  exists t0. do 3 (split; [done|]).
  destruct (setup_returns o).
  - destruct Hr as [-> Ht']. split; [done|]. cbn. unfold dispatch.
    destruct (query args) as [|x l]; [done|]. fold kb.
    destruct (one_shot args kb o) as [t [[]|e]]; cbn; by rewrite ?app_nil_r.
  - destruct Hr as [e ->]. by exists e.
Qed.

Lemma interactive_start_run o :
  ∃ t r,
    interactive_start o = (t, r)
    ∧ calls t = ([], [], [], [], []) ∧ input_prompts t = []
    ∧ agent_tool_lists t = []
    ∧ if welcome_readable o then r = Ok () else ∃ e, r = Raise e.
Proof.
  unfold interactive_start, first_text, welcome_readable. unfold_M.
  destruct (o_welcome o) as [[st ct]|e]; cbn [tr_status tr_content].
  - destruct (String.eqb st "success");
      [destruct ct as [|b ct]; [|destruct (b !! "text")]|];
      cbn; eexists _, _; (split; [reflexivity|]); repeat split; eauto.
  - eexists _, _. split; [reflexivity|]. repeat split; eauto.
Qed.

(** A run without a query: set-up, the welcome text, then the loop. *)
Lemma program_interactive args env o script :
  query args = [] →
  let kb := get_knowledge_base_id args (module_init env) in
  ∃ t0,
    calls t0 = ([], [], [], [], []) ∧ input_prompts t0 = []
    ∧ (agent_tool_lists t0 = [] ∨ agent_tool_lists t0 = [tools])
    ∧ if setup_returns o then
        agent_tool_lists t0 = [tools]
        ∧ if welcome_readable o then
            program args env o script =
              (t0 ++ trace (while_true (loop_body kb) script),
               outcome (while_true (loop_body kb) script))
          else ∃ e, program args env o script = (t0, Propagated e)
      else ∃ e, program args env o script = (t0, Propagated e).
Proof.
  intros Hq kb. unfold program, main.
  destruct (setup_run args (module_init env) o) as (t0 & r & -> & Hc & Hi & Ht & Hr).
  destruct (setup_returns o).
  2:{ destruct Hr as [e ->]. exists t0. do 3 (split; [done|]). by exists e. }
  destruct Hr as [-> Ht']. cbn. unfold dispatch. rewrite Hq. fold kb.
  destruct (interactive_start_run o) as (t1 & r1 & -> & Hc1 & Hi1 & Ht1 & Hr1).
  exists (t0 ++ t1). rewrite calls_app_quiet by done.
  unfold input_prompts, agent_tool_lists in *.
  rewrite !omap_app, Hi, Hi1, Ht', Ht1. do 3 (split; [auto|]).
  split; [done|]. destruct (welcome_readable o).
  - subst r1. cbn.
    destruct (while_true (loop_body kb) script) as [tl rl]. cbn.
    by rewrite app_assoc.
  - destruct Hr1 as [e ->]. by exists e.
Qed.

End Program.

(** ** Dispatch of a run and of an input line: C2, C9, C7, C3 *)

(** C2: in an iteration that reads the line [s], a line starting with an
    exclamation mark makes exactly one shell call, with the rest of the
    line unchanged, and no agent call; a line starting with a greater-than
    sign makes exactly one python_repl call, with the rest of the line
    stripped, and no agent call; any other line that is not blank and is
    not an exit command takes the forwarding path: no direct tool run is
    made, the only prompt the agent can receive is the line itself, and it
    does receive it once the calls that prepare the prompt have returned. *)
Theorem prefix_dispatch (kb : option string) (o : Oracle) (s : string) :
  o_input o = Ok s →
  let t := trace (loop_body kb o) in
  (PyStr.startswith "!" s = true →
     s = "!" +:+ PyStr.from1 s
     ∧ ToolShell (PyStr.from1 s) s ∈ t
     ∧ shell_commands t = [PyStr.from1 s]
     ∧ python_codes t = [] ∧ agent_prompts t = [])
  ∧ (PyStr.startswith ">" s = true →
     s = ">" +:+ PyStr.from1 s
     ∧ ToolPythonRepl (PyStr.strip (PyStr.from1 s)) s ∈ t
     ∧ python_codes t = [PyStr.strip (PyStr.from1 s)]
     ∧ shell_commands t = [] ∧ agent_prompts t = [])
  ∧ (PyStr.startswith "!" s = false → PyStr.startswith ">" s = false →
     PyStr.strip s ≠ "" → PyStr.lower s ∉ ["exit"; "quit"] →
     shell_commands t = [] ∧ python_codes t = []
     ∧ (agent_prompts t = [] ∨ agent_prompts t = [s])
     ∧ (forwarding_prep_returns kb o = true → agent_prompts t = [s])).
Proof.
  intros Hi t.
  assert (Hc : ∀ x, x ∈ trace (try_block kb o) → x ∈ t).
  { intros x Hx. subst t. rewrite loop_body_eq.
    destruct (try_block kb o) as [t' [c|e]]; [done|]. cbn in Hx.
    destruct (is_interrupt e); [set_solver|].
    destruct (is_Exception e); [set_solver|done]. }
  assert (Ht : calls t = calls (trace (try_block kb o))) by apply loop_body_calls.
  split; [|split].
  - intros Hb. pose proof (bang_not_exit _ Hb) as Hx.
    rewrite (try_block_calls _ _ _ Hi Hx) in Ht.
    unfold after_exit_test in Ht. rewrite Hb, run_shell_calls in Ht.
    injection Ht as -> -> -> _ _. split; [by apply startswith_char|].
    split; [|done]. apply Hc.
    rewrite try_block_eq, Hi, (bool_decide_eq_false_2 _ Hx).
    unfold after_exit_test. rewrite Hb, run_shell_eq.
    destruct (o_shell o) as [[]|e]; [set_solver|].
    destruct (is_Exception e); set_solver.
  - intros Hg. pose proof (gt_not_exit _ Hg) as Hx.
    assert (Hb : PyStr.startswith "!" s = false).
    { destruct (PyStr.startswith "!" s) eqn:E; [|done].
      apply bang_not_gt in E. congruence. }
    rewrite (try_block_calls _ _ _ Hi Hx) in Ht.
    unfold after_exit_test in Ht. rewrite Hb, Hg, run_python_calls in Ht.
    injection Ht as -> -> -> _ _. split; [by apply startswith_char|].
    split; [|done]. apply Hc.
    rewrite try_block_eq, Hi, (bool_decide_eq_false_2 _ Hx).
    unfold after_exit_test. rewrite Hb, Hg, run_python_eq.
    destruct (o_python_repl o) as [[]|e]; [set_solver|].
    destruct (is_Exception e); set_solver.
  - intros Hb Hg Hs%truthy_true Hx.
    rewrite (try_block_calls _ _ _ Hi Hx) in Ht.
    unfold after_exit_test in Ht. rewrite Hb, Hg, Hs in Ht.
    injection Ht as -> -> -> _ _.
    by destruct (forward_calls kb s o) as (? & ? & ? & ? & _).
Qed.

(** C2, on a concrete line: [!ls -l ] runs [ls -l ] in the shell. *)
Lemma prefix_dispatch_witness :
  o_input (typed "!ls -l ") = Ok "!ls -l "
  ∧ shell_commands (trace (loop_body None (typed "!ls -l "))) = ["ls -l "]
  ∧ agent_prompts (trace (loop_body None (typed "!ls -l "))) = [].
Proof.
  split; [reflexivity|].
  destruct (prefix_dispatch None (typed "!ls -l ") "!ls -l " eq_refl)
    as [H _].
  destruct (H eq_refl) as (_ & _ & Hs & _ & Ha). split; [exact Hs|exact Ha].
Defined.

(** C9: an iteration that reads a blank line (empty, or white space only;
    such a line has neither prefix) does nothing but read it: no agent
    call, no retrieval, no store; and the loop goes on with the next
    iteration. *)
Theorem blank_input_is_noop (kb : option string) (o : Oracle) (s : string)
    (script : list Oracle) :
  o_input o = Ok s → PyStr.strip s = "" →
  PyStr.startswith "!" s = false ∧ PyStr.startswith ">" s = false
  ∧ loop_body kb o = ([GetUserInput (nl +:+ "~ ")], Ok Continue)
  ∧ agent_prompts (trace (loop_body kb o)) = []
  ∧ retrievals (trace (loop_body kb o)) = []
  ∧ stores (trace (loop_body kb o)) = []
  ∧ while_true (loop_body kb) (o :: script) =
      (GetUserInput (nl +:+ "~ ") :: trace (while_true (loop_body kb) script),
       outcome (while_true (loop_body kb) script)).
Proof.
  intros Hi Hs.
  destruct (blank_no_prefix _ Hs) as [Hb Hg]. do 2 (split; [done|]).
  assert (Hl : loop_body kb o = ([GetUserInput (nl +:+ "~ ")], Ok Continue)).
  { rewrite loop_body_eq, try_block_eq, Hi.
    rewrite (bool_decide_eq_false_2 _ (blank_not_exit _ Hs)).
    unfold after_exit_test. by rewrite Hb, Hg, Hs. }
  rewrite while_true_cons, Hl. done.
Qed.

Lemma blank_input_is_noop_witness :
  while_true (loop_body (Some "KB")) [typed "   "; typed "quit"] =
    ([GetUserInput (nl +:+ "~ "); GetUserInput (nl +:+ "~ "); RenderGoodbye],
     Returned).
Proof.
  destruct (blank_input_is_noop (Some "KB") (typed "   ") "   " [typed "quit"]
              eq_refl eq_refl) as (_ & _ & _ & _ & _ & _ & H).
  rewrite H. reflexivity.
Defined.

Lemma loop_body_call_counts (kb : option string) (o : Oracle) :
  let t := trace (loop_body kb o) in
  length (shell_commands t) ≤ 1 ∧ length (python_codes t) ≤ 1
  ∧ length (agent_prompts t) ≤ 1
  ∧ length (retrievals t) ≤ 1 ∧ length (stores t) ≤ 1.
Proof.
  intros t. pose proof (loop_body_calls kb o) as Hc. fold t in Hc.
  rewrite try_block_eq in Hc. destruct (o_input o) as [s|e].
  2:{ injection Hc as -> -> -> -> ->. cbn. lia. }
  destruct (bool_decide _).
  { injection Hc as -> -> -> -> ->. cbn. lia. }
  assert (Hc' : calls t = calls (trace (after_exit_test kb s o))).
  { rewrite Hc. by destruct (after_exit_test kb s o) as [t' [[]|e]]. }
  clear Hc. unfold after_exit_test in Hc'.
  destruct (PyStr.startswith "!" s).
  { rewrite run_shell_calls in Hc'. injection Hc' as -> -> -> -> ->. cbn. lia. }
  destruct (PyStr.startswith ">" s).
  { rewrite run_python_calls in Hc'. injection Hc' as -> -> -> -> ->. cbn. lia. }
  destruct (PyStr.truthy _).
  - injection Hc' as -> -> -> -> ->.
    destruct (forward_calls kb s o) as (-> & -> & [-> | ->] & _ & Hr & Hs);
      cbn; lia.
  - injection Hc' as -> -> -> -> ->. cbn. lia.
Qed.

(** C7: whatever the calls answer (so also when one of them raises), an
    iteration makes at most one shell call, at most one python_repl call
    and at most one agent call (and at most one retrieval and one store);
    a run given a query makes at most one
    agent call, makes exactly one (with the query) when the calls before
    it return, and lets an exception of that call leave [main]. *)
Theorem no_retry :
  (∀ kb o, let t := trace (loop_body kb o) in
     length (shell_commands t) ≤ 1 ∧ length (python_codes t) ≤ 1
     ∧ length (agent_prompts t) ≤ 1
     ∧ length (retrievals t) ≤ 1 ∧ length (stores t) ≤ 1)
  ∧ (∀ args env o script,
       query args ≠ [] →
       let kb := get_knowledge_base_id args (module_init env) in
       let run := program args env o script in
       length (agent_prompts (trace run)) ≤ 1
       ∧ (setup_returns o = true → retrieval_returns kb o = true →
            agent_prompts (trace run) = [PyStr.join " " (query args)]
            ∧ ∀ e, o_agent o = Raise e → outcome run = Propagated e)).
Proof.
  split; [apply loop_body_call_counts|].
  intros args env o script Hq kb run.
  destruct (program_one_shot args env o script Hq) as (t0 & Hc & _ & _ & Hr).
  fold kb in Hr. fold run in Hr.
  destruct (one_shot_run args kb o) as (_ & _ & _ & _ & Ha & Ha1 & Ha2).
  injection Hc as _ _ Hc0 _ _. fold (agent_prompts t0) in Hc0.
  destruct (setup_returns o).
  - destruct Hr as [_ ->]. cbn. unfold agent_prompts in *.
    rewrite omap_app, Hc0. cbn. split.
    + destruct Ha as [-> | ->]; cbn; lia.
    + intros _ Hrt. split; [by apply Ha1|].
      intros e He. by rewrite (Ha2 e Hrt He).
  - destruct Hr as [e ->]. cbn. unfold agent_prompts in *. rewrite Hc0. cbn.
    split; [lia|done].
Qed.

Lemma no_retry_witness :
  length (agent_prompts (trace (program (cli ["what"; "is"; "new"] None) ∅
            (sample (Ok "") (Ok ()) (Ok ())
               (Raise (Exn (OtherException "RuntimeError") "boom"))) []))) ≤ 1.
Proof.
  destruct no_retry as [_ H].
  refine (proj1 (H (cli ["what"; "is"; "new"] None) ∅ _ [] _)). discriminate.
Defined.

(** C3: given at least one positional argument, the run reads no input
    line and ends without waiting for one; the only prompt the agent can
    receive is the arguments joined by single spaces, and it receives it
    exactly once when the calls before it return.  Given none, the run
    continues, after the set-up and the welcome text, as the interactive
    loop, which begins by reading a line. *)
Theorem one_shot_iff_query_given (args : Args) (env : environ) (o : Oracle)
    (script : list Oracle) :
  let kb := get_knowledge_base_id args (module_init env) in
  let run := program args env o script in
  (query args ≠ [] →
     input_prompts (trace run) = [] ∧ outcome run ≠ AwaitingInput
     ∧ (agent_prompts (trace run) = []
        ∨ agent_prompts (trace run) = [PyStr.join " " (query args)])
     ∧ (setup_returns o = true → retrieval_returns kb o = true →
          agent_prompts (trace run) = [PyStr.join " " (query args)]))
  ∧ (query args = [] → setup_returns o = true → welcome_readable o = true →
     ∃ t0, agent_prompts t0 = [] ∧ input_prompts t0 = []
       ∧ run = (t0 ++ trace (while_true (loop_body kb) script),
                outcome (while_true (loop_body kb) script))
       ∧ (script = [] → outcome run = AwaitingInput)
       ∧ (∀ o1 script', script = o1 :: script' →
            ∃ tl, trace run = t0 ++ GetUserInput (nl +:+ "~ ") :: tl)).
Proof.
  intros kb run. subst run. split.
  - intros Hq.
    destruct (program_one_shot args env o script Hq) as (t0 & Hc & Hi & _ & Hr).
    fold kb in Hr.
    destruct (one_shot_run args kb o) as (Hi1 & _ & _ & _ & Ha & Ha1 & _).
    injection Hc as _ _ Hc0 _ _. fold (agent_prompts t0) in Hc0.
    destruct (setup_returns o).
    + destruct Hr as [_ ->]. cbn. unfold agent_prompts, input_prompts in *.
      rewrite !omap_app, Hc0, Hi, Hi1. cbn. split; [done|].
      split; [by destruct (outcome (one_shot args kb o))|].
      split; [done|]. intros _. apply Ha1.
    + destruct Hr as [e ->]. unfold trace, outcome. cbn [fst snd].
      rewrite Hc0, Hi. repeat split; [done|by left|done].
  - intros Hq Hs Hw.
    destruct (program_interactive args env o script Hq) as (t0 & Hc & Hi & _ & Hr).
    fold kb in Hr. rewrite Hs, Hw in Hr. destruct Hr as [_ Hr].
    injection Hc as _ _ Hc0 _ _. fold (agent_prompts t0) in Hc0.
    exists t0. do 3 (split; [done|]). split.
    + intros ->. by rewrite Hr.
    + intros o1 script' ->. rewrite Hr, while_true_cons.
      destruct (loop_body_head kb o1) as [tl Htl].
      destruct (loop_body kb o1) as [t [[]|e]]; cbn in Htl; subst t; cbn;
        by eexists.
Qed.

Lemma one_shot_iff_query_given_witness :
  agent_prompts (trace (program (cli ["what"; "is"; "new"] (Some "KB")) ∅
                          (typed "") [typed "ignored"]))
  = ["what is new"].
Proof.
  destruct (one_shot_iff_query_given (cli ["what"; "is"; "new"] (Some "KB")) ∅
              (typed "") [typed "ignored"]) as [H _].
  destruct H as (_ & _ & _ & H); [discriminate|]. exact (H eq_refl eq_refl).
Defined.

(** ** How an iteration ends: C8 and C10 *)

Section Endings.

Implicit Types (kb : option string) (o : Oracle) (s : string).

(** The events of the [try] block are events of the iteration. *)
Lemma try_block_sub kb o ev :
  ev ∈ trace (try_block kb o) → ev ∈ trace (loop_body kb o).
Proof.
  rewrite loop_body_eq. destruct (try_block kb o) as [t [c|e]]; [done|].
  cbn. intros H. destruct (is_interrupt e); [|destruct (is_Exception e)];
    cbn; rewrite ?elem_of_app; auto.
Qed.

(** An exception that leaves the [try] block was raised by one of its
    calls, or by reading the text out of the welcome result. *)
Lemma try_block_raised_by kb o e :
  outcome (try_block kb o) = Raise e →
  (∃ ev, raised_at o (trace (try_block kb o)) ev e)
  ∨ (is_Exception e = true ∧ is_interrupt e = false).
Proof.
  unfold raised_at. rewrite try_block_eq.
  destruct (o_input o) as [s|e'] eqn:Hi.
  2:{ cbn. intros [= ->]. left. eexists (GetUserInput _).
      split; [in_trace|]. cbn. by rewrite Hi. }
  destruct (bool_decide _); [done|]. unfold after_exit_test.
  destruct (PyStr.startswith "!" s);
    [|destruct (PyStr.startswith ">" s); [|destruct (PyStr.truthy _)]].
  - rewrite run_shell_eq. destruct (o_shell o) as [[]|e'] eqn:Hs; [done|].
    destruct (is_Exception e'); [done|]. cbn. intros [= ->]. left.
    eexists (ToolShell _ _). split; [in_trace|]. cbn. by rewrite Hs.
  - rewrite run_python_eq. destruct (o_python_repl o) as [[]|e'] eqn:Hs; [done|].
    destruct (is_Exception e'); [done|]. cbn. intros [= ->]. left.
    eexists (ToolPythonRepl _ _). split; [in_trace|]. cbn. by rewrite Hs.
  - pose proof (forward_raised_by kb s o e) as Hf.
    destruct (forward kb s o) as [t [[]|e']]; [done|]. cbn in *.
    intros [= ->]. destruct (Hf eq_refl) as [(ev & Hin & Ha & _)|H]; [|by right].
    left. exists ev. split; [|done]. by apply list_elem_of_further.
  - done.
Qed.

(** Exit commands (first part of C8). *)
Lemma exit_command kb o s :
  o_input o = Ok s → PyStr.lower s ∈ ["exit"; "quit"] →
  loop_body kb o = ([GetUserInput (nl +:+ "~ "); RenderGoodbye], Ok Break).
Proof.
  intros Hi Hx. by rewrite loop_body_eq, try_block_eq, Hi, bool_decide_eq_true_2.
Qed.

(** An exception that reaches the outer handlers as an interrupt. *)
Lemma interrupt_ends_loop kb o ev e :
  raised_at o (trace (loop_body kb o)) ev e →
  is_interrupt e = true →
  (is_direct_tool_run ev && is_Exception e) = false →
  ∃ t, loop_body kb o = (t ++ [RenderGoodbye], Ok Break).
Proof.
  intros Hr%raised_in_try_block Hint Hd.
  apply try_block_raise in Hr. rewrite Hd in Hr.
  rewrite loop_body_eq. destruct (try_block kb o) as [t r]. cbn in Hr. subst r.
  rewrite Hint. by exists t.
Qed.

(** An [Exception] raised in a direct tool run is reported by the inner
    handler; one raised elsewhere, unless it is an [EOFError], by the
    outer one. *)
Lemma exception_is_reported kb o ev e :
  raised_at o (trace (loop_body kb o)) ev e →
  is_Exception e = true →
  is_interrupt e = false ∨ is_direct_tool_run ev = true →
  ∃ t pre, loop_body kb o = (t ++ [PrintLine (pre +:+ exn_str e)], Ok Continue).
Proof.
  intros Hr%raised_in_try_block Hex Hc.
  apply try_block_raise in Hr. rewrite Hex, andb_true_r in Hr.
  rewrite loop_body_eq. destruct (is_direct_tool_run ev).
  - destruct Hr as (t & pre & ->). by exists t, pre.
  - destruct Hc as [Hc|Hc]; [|done].
    destruct (try_block kb o) as [t r]. cbn in Hr. subst r.
    rewrite Hc, Hex. by exists t, (nl +:+ "Error: ").
Qed.

Lemma break_cause kb o :
  outcome (loop_body kb o) = Ok Break →
  (∃ s, o_input o = Ok s ∧ PyStr.lower s ∈ ["exit"; "quit"])
  ∨ (∃ ev e, raised_at o (trace (loop_body kb o)) ev e ∧ is_interrupt e = true).
Proof.
  pose proof (try_block_raised_by kb o) as Hby.
  pose proof (try_block_sub kb o) as Hsub.
  rewrite loop_body_eq in *.
  destruct (try_block kb o) as [t [c|e]] eqn:Ht.
  - intros [= ->]. left. rewrite try_block_eq in Ht.
    destruct (o_input o) as [s|e]; [|done]. exists s. split; [done|].
    destruct (bool_decide _) eqn:Hb; [by apply bool_decide_eq_true_1 in Hb|].
    by destruct (after_exit_test kb s o) as [t' [[]|e]].
  - destruct (is_interrupt e) eqn:Hint.
    + intros _. right. destruct (Hby e eq_refl) as [(ev & Hin & Ha)|[_ H]].
      * exists ev, e. split; [|done]. split; [|done]. by apply Hsub.
      * congruence.
    + by destruct (is_Exception e).
Qed.

Lemma raise_cause kb o e :
  outcome (loop_body kb o) = Raise e →
  is_Exception e = false ∧ is_interrupt e = false
  ∧ ∃ ev, raised_at o (trace (loop_body kb o)) ev e.
Proof.
  pose proof (try_block_raised_by kb o) as Hby.
  pose proof (try_block_sub kb o) as Hsub.
  rewrite loop_body_eq in *.
  destruct (try_block kb o) as [t [c|e']] eqn:Ht; [done|].
  destruct (is_interrupt e') eqn:Hint; [done|].
  destruct (is_Exception e') eqn:Hex; [done|]. cbn. intros [= ->].
  do 2 (split; [done|]).
  destruct (Hby e eq_refl) as [(ev & Hin & Ha)|[H _]]; [|congruence].
  exists ev. split; [|done]. by apply Hsub.
Qed.

(** How the loop can stand after any script. *)
Lemma loop_ends kb script :
  match outcome (while_true (loop_body kb) script) with
  | Returned =>
      ∃ t, trace (while_true (loop_body kb) script) = t ++ [RenderGoodbye]
  | Propagated e => is_Exception e = false ∧ is_interrupt e = false
  | AwaitingInput => True
  end.
Proof.
  induction script as [|o script IH]; [done|].
  rewrite while_true_cons.
  pose proof (break_cause kb o) as Hb. pose proof (raise_cause kb o) as Hr.
  pose proof (exit_command kb o) as Hx.
  pose proof (interrupt_ends_loop kb o) as Hi.
  destruct (loop_body kb o) as [t [[]|e]] eqn:Hl; cbn.
  - destruct (outcome (while_true (loop_body kb) script)); [|done..].
    destruct IH as [t' ->]. exists (t ++ t'). by rewrite app_assoc.
  - destruct (Hb eq_refl) as [(s & Hs & Hq)|(ev & e & Hra & Hint)].
    + specialize (Hx s Hs Hq). injection Hx as -> . by exists [GetUserInput (nl +:+ "~ ")].
    + destruct (is_direct_tool_run ev && is_Exception e) eqn:Hd.
      * apply andb_true_iff in Hd as [Hd He].
        assert (Hc : is_interrupt e = false ∨ is_direct_tool_run ev = true) by by right.
        destruct (exception_is_reported kb o ev e) as (? & ? & Heq);
          [by rewrite Hl|done|done|]. rewrite Hl in Heq. discriminate Heq.
      * destruct (Hi ev e Hra Hint Hd) as [t' [= ->]]. by exists t'.
  - by destruct (Hr e eq_refl) as (? & ? & _).
Qed.

End Endings.

(** C8 fails as stated: the [EOFError] raised by the shell call of the
    line [!cat] is caught by the inner handler; no goodbye is rendered and
    the loop goes on to the next line. *)
Lemma eof_in_shell_does_not_end_loop :
  raised_at eof_in_shell (trace (loop_body None eof_in_shell))
    (ToolShell "cat" "!cat") (Exn EOFError "EOF when reading a line")
  ∧ is_interrupt (Exn EOFError "EOF when reading a line") = true
  ∧ loop_body None eof_in_shell =
      ([GetUserInput (nl +:+ "~ "); PrintLine "$ cat"; ToolShell "cat" "!cat";
        PrintLine "Shell command execution error: EOF when reading a line"],
       Ok Continue)
  ∧ (RenderGoodbye ∉ trace (loop_body None eof_in_shell))
  ∧ while_true (loop_body None) [eof_in_shell; typed "!pwd"] =
      ([GetUserInput (nl +:+ "~ "); PrintLine "$ cat"; ToolShell "cat" "!cat";
        PrintLine "Shell command execution error: EOF when reading a line";
        GetUserInput (nl +:+ "~ "); PrintLine "$ pwd"; ToolShell "pwd" "!pwd";
        PrintLine ""],
       AwaitingInput).
Proof.
  split; [split; [vm_compute; in_trace|reflexivity]|].
  split; [reflexivity|]. split; [reflexivity|]. split; [|reflexivity].
  apply (bool_decide_unpack _). vm_compute. exact I.
Qed.

(** C8, amended: an exit command ends the loop at once, after the goodbye
    message, before any dispatch; so does a [KeyboardInterrupt] raised by
    any call of the iteration, and an [EOFError] raised by any call other
    than the shell or python_repl run.  An [EOFError] raised by one of
    those two runs is reported as an execution error and the loop goes on.
    An iteration that breaks ends the loop whatever input would follow. *)
Theorem exit_and_interrupt_end_loop (kb : option string) (o : Oracle) :
  (∀ s, o_input o = Ok s → PyStr.lower s ∈ ["exit"; "quit"] →
     loop_body kb o = ([GetUserInput (nl +:+ "~ "); RenderGoodbye], Ok Break))
  ∧ (∀ ev e, raised_at o (trace (loop_body kb o)) ev e →
       exn_class e = KeyboardInterrupt
       ∨ (exn_class e = EOFError ∧ is_direct_tool_run ev = false) →
       ∃ t, loop_body kb o = (t ++ [RenderGoodbye], Ok Break))
  ∧ (∀ ev e, raised_at o (trace (loop_body kb o)) ev e →
       exn_class e = EOFError → is_direct_tool_run ev = true →
       ∃ t pre, loop_body kb o = (t ++ [PrintLine (pre +:+ exn_str e)], Ok Continue))
  ∧ (∀ script, outcome (loop_body kb o) = Ok Break →
       while_true (loop_body kb) (o :: script) =
         (trace (loop_body kb o), Returned)).
Proof.
  split; [apply exit_command|]. split; [|split].
  - intros ev e Hr Hc. apply (interrupt_ends_loop kb o ev e Hr).
    + unfold is_interrupt. by destruct Hc as [-> | [-> _]].
    + unfold is_Exception. destruct Hc as [-> | [-> ->]]; [|done].
      apply andb_false_r.
  - intros ev e Hr Hc Hd. apply (exception_is_reported kb o ev e Hr).
    + unfold is_Exception. by rewrite Hc.
    + by right.
  - intros script Hb. rewrite while_true_cons.
    destruct (loop_body kb o) as [t r]. cbn in Hb. by subst r.
Qed.

Lemma exit_and_interrupt_end_loop_witness :
  loop_body (Some "KB") (typed "QUIT") =
    ([GetUserInput (nl +:+ "~ "); RenderGoodbye], Ok Break).
Proof.
  destruct (exit_and_interrupt_end_loop (Some "KB") (typed "QUIT")) as [H _].
  apply (H "QUIT"); [reflexivity|]. vm_compute. in_trace.
Defined.

(** C10 fails as stated: a [SystemExit] raised by the python_repl call is
    neither a [KeyboardInterrupt] nor an [EOFError], no handler of the
    iteration catches it, and it ends the loop: the next scripted line is
    never read. *)
Lemma system_exit_leaves_loop :
  is_interrupt (Exn SystemExit "") = false
  ∧ while_true (loop_body None) [exit_in_python; typed "hello"] =
      ([GetUserInput (nl +:+ "~ "); ToolPythonRepl "exit()" ">exit()"],
       Propagated (Exn SystemExit "")).
Proof. split; reflexivity. Qed.

(** C10, amended: an exception that derives from [Exception], raised by a
    call of an iteration, is caught and reported and the loop continues
    with the next input (an [EOFError] only when the shell or python_repl
    run raised it); so is an [Exception] other than [EOFError] that leaves
    the [try] block for any reason.  The loop ends only on an exit
    command, on an interrupt ([KeyboardInterrupt], or [EOFError] outside
    those two runs), both after the goodbye message, or on an exception
    that does not derive from [Exception], which leaves [main]. *)
Theorem only_base_exceptions_leave_loop (kb : option string) :
  (∀ o ev e, raised_at o (trace (loop_body kb o)) ev e →
     is_Exception e = true →
     exn_class e ≠ EOFError ∨ is_direct_tool_run ev = true →
     ∃ t pre, loop_body kb o = (t ++ [PrintLine (pre +:+ exn_str e)], Ok Continue))
  ∧ (∀ o e, outcome (try_block kb o) = Raise e →
       is_Exception e = true → exn_class e ≠ EOFError →
       loop_body kb o =
         (trace (try_block kb o) ++ [PrintLine (nl +:+ "Error: " +:+ exn_str e)],
          Ok Continue))
  ∧ (∀ o script, outcome (loop_body kb o) = Ok Continue →
       while_true (loop_body kb) (o :: script) =
         (trace (loop_body kb o) ++ trace (while_true (loop_body kb) script),
          outcome (while_true (loop_body kb) script)))
  ∧ (∀ o, outcome (loop_body kb o) = Ok Break →
       (∃ s, o_input o = Ok s ∧ PyStr.lower s ∈ ["exit"; "quit"])
       ∨ (∃ ev e, raised_at o (trace (loop_body kb o)) ev e
                  ∧ is_interrupt e = true))
  ∧ (∀ o e, outcome (loop_body kb o) = Raise e →
       is_Exception e = false ∧ is_interrupt e = false
       ∧ ∃ ev, raised_at o (trace (loop_body kb o)) ev e)
  ∧ (∀ script,
       match outcome (while_true (loop_body kb) script) with
       | Returned =>
           ∃ t, trace (while_true (loop_body kb) script) = t ++ [RenderGoodbye]
       | Propagated e => is_Exception e = false ∧ is_interrupt e = false
       | AwaitingInput => True
       end).
Proof.
  assert (Hni : ∀ e, is_Exception e = true → exn_class e ≠ EOFError →
                     is_interrupt e = false).
  { intros e. unfold is_Exception, is_interrupt. by destruct (exn_class e). }
  split; [|split; [|split; [|split; [|split]]]].
  - intros o ev e Hr Hex Hc. apply (exception_is_reported kb o ev e Hr Hex).
    destruct Hc as [Hc|Hc]; [left; by apply Hni|by right].
  - intros o e Ho Hex Hne. rewrite loop_body_eq.
    destruct (try_block kb o) as [t r]. cbn in Ho. subst r.
    by rewrite (Hni e Hex Hne), Hex.
  - intros o script Hc. rewrite while_true_cons.
    destruct (loop_body kb o) as [t r]. cbn in Hc. by subst r.
  - apply break_cause.
  - apply raise_cause.
  - apply loop_ends.
Qed.

Lemma only_base_exceptions_leave_loop_witness :
  ∃ t pre,
    loop_body None
      (sample (Ok "hello") (Ok ()) (Ok ())
         (Raise (Exn (OtherException "RuntimeError") "model unavailable")))
    = (t ++ [PrintLine (pre +:+ "model unavailable")], Ok Continue).
Proof.
  destruct (only_base_exceptions_leave_loop None) as [H _].
  apply (H _ (CallAgent "hello"
               (Some ("PROMPT" +:+ nl +:+ nl +:+ "Welcome Text Reference:" +:+ nl
                      +:+ "Welcome")))
           (Exn (OtherException "RuntimeError") "model unavailable")).
  - split; [vm_compute; in_trace|reflexivity].
  - reflexivity.
  - left. discriminate.
Defined.

(** ** Telemetry variables: C6 *)

Section Telemetry.

Implicit Types (env : environ).

Lemma module_init_eq env :
  module_init env =
    <["STRANDS_TOOL_CONSOLE_MODE" := "enabled"]>
      (if PyStr.truthy_opt (env !! "LANGFUSE_HOST") then
         <["OTEL_EXPORTER_OTLP_HEADERS" := "Authorization=Basic " +:+ auth_token env]>
           (<["OTEL_EXPORTER_OTLP_ENDPOINT" := otel_endpoint env]> env)
       else env).
Proof.
  unfold module_init, environ_writes.
  by destruct (PyStr.truthy_opt (env !! "LANGFUSE_HOST")).
Qed.

(** Loading the module leaves every other variable as it was. *)
Lemma module_init_other env k :
  k ≠ "OTEL_EXPORTER_OTLP_ENDPOINT" → k ≠ "OTEL_EXPORTER_OTLP_HEADERS" →
  k ≠ "STRANDS_TOOL_CONSOLE_MODE" →
  module_init env !! k = env !! k.
Proof.
  intros H1 H2 H3. rewrite module_init_eq.
  rewrite lookup_insert_ne by done.
  destruct (PyStr.truthy_opt _); [|done].
  by rewrite !lookup_insert_ne.
Qed.

End Telemetry.

(** C6: the module assigns [OTEL_EXPORTER_OTLP_ENDPOINT] and
    [OTEL_EXPORTER_OTLP_HEADERS] exactly when [LANGFUSE_HOST] is set and
    not empty; the endpoint is then the host followed by
    [/api/public/otel/v1/traces] and the header is [Authorization=Basic ]
    followed by the base64 text of [public:secret]; otherwise both
    variables are left as they were. *)
Theorem telemetry_controlled_by_langfuse_host (env : environ) :
  let host_set := ∃ h, env !! "LANGFUSE_HOST" = Some h ∧ h ≠ "" in
  ("OTEL_EXPORTER_OTLP_ENDPOINT" ∈ (environ_writes env).*1 ↔ host_set)
  ∧ ("OTEL_EXPORTER_OTLP_HEADERS" ∈ (environ_writes env).*1 ↔ host_set)
  ∧ (∀ h, env !! "LANGFUSE_HOST" = Some h → h ≠ "" →
       module_init env !! "OTEL_EXPORTER_OTLP_ENDPOINT"
         = Some (h +:+ "/api/public/otel/v1/traces")
       ∧ module_init env !! "OTEL_EXPORTER_OTLP_HEADERS"
         = Some ("Authorization=Basic " +:+
                 Base64.b64encode
                   (PyStr.encode
                      (PyStr.str_opt (env !! "LANGFUSE_PUBLIC_KEY") +:+ ":" +:+
                       PyStr.str_opt (env !! "LANGFUSE_SECRET_KEY")))))
  ∧ (¬ host_set →
       module_init env !! "OTEL_EXPORTER_OTLP_ENDPOINT"
         = env !! "OTEL_EXPORTER_OTLP_ENDPOINT"
       ∧ module_init env !! "OTEL_EXPORTER_OTLP_HEADERS"
         = env !! "OTEL_EXPORTER_OTLP_HEADERS").
Proof.
  intros host_set.
  assert (Ht : PyStr.truthy_opt (env !! "LANGFUSE_HOST") = true ↔ host_set)
    by apply truthy_opt_true.
  rewrite module_init_eq. unfold environ_writes.
  destruct (PyStr.truthy_opt (env !! "LANGFUSE_HOST")) eqn:E.
  - pose proof (proj1 Ht eq_refl) as Hs.
    split; [split; [done|intros _; cbn; in_trace]|].
    split; [split; [done|intros _; cbn; in_trace]|].
    split; [|done].
    intros h Hh Hne. split.
    + repeat (rewrite lookup_insert_ne by done). rewrite lookup_insert_eq.
      unfold otel_endpoint. by rewrite Hh.
    + repeat (rewrite lookup_insert_ne by done). by rewrite lookup_insert_eq.
  - assert (Hn : ¬ host_set) by (intros H%Ht; discriminate H).
    split; [split; [|done]|].
    { cbn. by intros [=]%list_elem_of_singleton. }
    split; [split; [|done]|].
    { cbn. by intros [=]%list_elem_of_singleton. }
    split.
    + intros h Hh Hne. destruct Hn. by exists h.
    + intros _. by rewrite !lookup_insert_ne.
Qed.

Lemma telemetry_controlled_by_langfuse_host_witness :
  module_init {[ "LANGFUSE_HOST" := "https://cloud.langfuse.com";
                 "LANGFUSE_PUBLIC_KEY" := "pk"; "LANGFUSE_SECRET_KEY" := "sk" ]}
    !! "OTEL_EXPORTER_OTLP_HEADERS"
  = Some "Authorization=Basic cGs6c2s=".
Proof.
  destruct (telemetry_controlled_by_langfuse_host
              {[ "LANGFUSE_HOST" := "https://cloud.langfuse.com";
                 "LANGFUSE_PUBLIC_KEY" := "pk"; "LANGFUSE_SECRET_KEY" := "sk" ]})
    as (_ & _ & H & _).
  destruct (H "https://cloud.langfuse.com") as [_ ->]; [reflexivity|discriminate|].
  reflexivity.
Defined.

(** ** The tools handed to the agent: C5 and C1 *)

Section ToolList.

Implicit Types (kb : option string) (o : Oracle) (env : environ).

Lemma while_true_no_new_agent kb script :
  agent_tool_lists (trace (while_true (loop_body kb) script)) = [].
Proof.
  apply (while_true_trace_ind (λ t, agent_tool_lists t = [])); [done|..].
  - apply loop_body_no_new_agent.
  - intros o t Ht. unfold agent_tool_lists in *. rewrite omap_app, Ht.
    rewrite app_nil_r. apply loop_body_no_new_agent.
Qed.

Lemma program_tool_lists args env o script :
  let t := trace (program args env o script) in
  (agent_tool_lists t = [] ∨ agent_tool_lists t = [tools])
  ∧ (setup_returns o = true → agent_tool_lists t = [tools]).
Proof.
  set (kb := get_knowledge_base_id args (module_init env)).
  assert (Happ : ∀ t0 t1, agent_tool_lists t1 = [] →
                          agent_tool_lists (t0 ++ t1) = agent_tool_lists t0).
  { intros t0 t1 H1. unfold agent_tool_lists in *.
    by rewrite omap_app, H1, app_nil_r. }
  destruct (query args) as [|x l] eqn:Hq.
  - destruct (program_interactive args env o script Hq) as (t0 & _ & _ & Ht & Hr).
    fold kb in Hr. destruct (setup_returns o).
    + destruct Hr as [Ht' Hr]. destruct (welcome_readable o).
      * rewrite Hr. cbn. rewrite Happ by apply while_true_no_new_agent. auto.
      * destruct Hr as [e ->]. cbn. auto.
    + destruct Hr as [e ->]. by cbn.
  - assert (Hq' : query args ≠ []) by by rewrite Hq.
    destruct (program_one_shot args env o script Hq') as (t0 & _ & _ & Ht & Hr).
    fold kb in Hr. destruct (setup_returns o).
    + destruct Hr as [Ht' ->]. cbn.
      destruct (one_shot_run args kb o) as (_ & Hn & _).
      rewrite Happ by done. auto.
    + destruct Hr as [e ->]. by cbn.
Qed.

(** [main] reads the environment only to find the knowledge base. *)
Lemma main_env args env1 env2 o script :
  env1 !! "STRANDS_KNOWLEDGE_BASE_ID" = env2 !! "STRANDS_KNOWLEDGE_BASE_ID" →
  main args env1 o script = main args env2 o script.
Proof.
  intros H. unfold main, setup, get_knowledge_base_id. by rewrite H.
Qed.

End ToolList.

(** C5: every run builds the agent with the same list [tools], whatever
    the arguments, the environment and the answers of the outside world;
    but that list names [load_tool] twice (entries 10 and 14, counted from
    0): 28 entries for 27 tools. *)
Theorem tools_fixed_but_load_tool_twice :
  (∀ args env o script,
     let t := trace (program args env o script) in
     (agent_tool_lists t = [] ∨ agent_tool_lists t = [tools])
     ∧ (setup_returns o = true → agent_tool_lists t = [tools]))
  ∧ tools !! 10 = Some Tool.load_tool ∧ tools !! 14 = Some Tool.load_tool
  ∧ ¬ NoDup tools
  ∧ length tools = 28 ∧ length (remove_dups tools) = 27.
Proof.
  split; [apply program_tool_lists|].
  do 2 (split; [reflexivity|]). split; [|split; reflexivity].
  intros H. apply NoDup_ListNoDup in H.
  apply (List.NoDup_nth_error) with (i := 10) (j := 14) in H;
    [discriminate H|cbn; lia|reflexivity].
Qed.

(** C1: the module binds no [load_extra_tools], in any environment, so
    importing that name from it raises [ImportError]; and a run does not
    depend on [STRANDS_EXTRA_TOOLS]. *)
Theorem load_extra_tools_not_defined :
  (∀ env, "load_extra_tools" ∉ module_globals env)
  ∧ (∀ env,
       import_from_strands env "load_extra_tools" =
         Raise (Exn ImportError
                  "cannot import name 'load_extra_tools' from 'strands_agents_builder.strands'"))
  ∧ (∀ args env v o script,
       program args (<["STRANDS_EXTRA_TOOLS" := v]> env) o script
       = program args env o script).
Proof.
  assert (Hn : ∀ env, "load_extra_tools" ∉ module_globals env).
  { intros env. unfold module_globals.
    destruct (PyStr.truthy_opt _); apply (bool_decide_unpack _);
      vm_compute; exact I. }
  split; [done|]. split.
  - intros env. unfold import_from_strands.
    destruct (decide _) as [H|_]; [by apply Hn in H|done].
  - intros args env v o script. unfold program. apply main_env.
    rewrite !module_init_other by done. by rewrite lookup_insert_ne.
Qed.

(** ** The knowledge base: C4 *)

Section KnowledgeBase.

Implicit Types (kb : option string) (o : Oracle) (s : string).

Lemma kb_view_app t1 t2 : kb_view (t1 ++ t2) = kb_view t1 ++ kb_view t2.
Proof. apply omap_app. Qed.

Lemma kb_view_quiet t : calls t = ([], [], [], [], []) → kb_view t = [].
Proof.
  unfold calls, agent_prompts, retrievals, stores, kb_view.
  intros [= _ _ Ha Hr Hs]. induction t as [|ev t IH]; [done|].
  destruct ev; cbn in *; try discriminate; by apply IH.
Qed.

(** What the one-shot branch shows.  Its store call (line 192) passes the
    query and the knowledge base id only; the loop's (line 253) passes
    the response between them. *)
Lemma one_shot_kb_view args kb o :
  kb_used kb = true →
  kb_view (trace (one_shot args kb o)) =
    Retrieved (PyStr.join " " (query args)) (kb_str kb) ::
    match o_retrieve o with
    | Raise _ => []
    | Ok _ =>
        Asked (PyStr.join " " (query args)) ::
        match o_agent o with
        | Raise _ => []
        | Ok _ => [Stored [PyStr.join " " (query args); kb_str kb]]
        end
    end.
Proof.
  intros Hk. unfold one_shot. unfold_M. rewrite Hk.
  by destruct (o_retrieve o) as [[]|], (o_agent o), (o_store o) as [[]|].
Qed.

Lemma one_shot_no_kb args kb o :
  kb_used kb = false →
  retrievals (trace (one_shot args kb o)) = []
  ∧ stores (trace (one_shot args kb o)) = [].
Proof.
  intros Hk. unfold one_shot. unfold_M. rewrite Hk.
  by destruct (o_agent o).
Qed.

Lemma forward_kb_view kb s o :
  kb_used kb = true →
  kb_view (trace (forward kb s o)) =
    Retrieved s (kb_str kb) ::
    if forwarding_prep_returns kb o then
      Asked s ::
      match o_agent o with
      | Ok r => [Stored [s; r; kb_str kb]]
      | Raise _ => []
      end
    else [].
Proof.
  forward_cases kb o; intros Hk; try discriminate Hk; reflexivity.
Qed.

Lemma forward_no_kb kb s o :
  kb_used kb = false →
  retrievals (trace (forward kb s o)) = [] ∧ stores (trace (forward kb s o)) = [].
Proof.
  forward_cases kb o; intros Hk; try discriminate Hk; done.
Qed.

Lemma loop_body_kb_view kb o :
  kb_view (trace (loop_body kb o)) =
    match o_input o with
    | Ok s => if forwarded s then kb_view (trace (forward kb s o)) else []
    | Raise _ => []
    end.
Proof.
  assert (Hq : ∀ t1 t2, kb_view t2 = [] → kb_view (t1 ++ t2) = kb_view t1).
  { intros t1 t2 H. by rewrite kb_view_app, H, app_nil_r. }
  assert (Hend : ∀ t e,
    kb_view (trace (
        if is_interrupt e then (t ++ [RenderGoodbye], Ok Break)
        else if is_Exception e
             then (t ++ [PrintLine (nl +:+ "Error: " +:+ exn_str e)], Ok Continue)
             else (t, Raise e))) = kb_view t).
  { intros t e. destruct (is_interrupt e); [|destruct (is_Exception e)];
      cbn; by rewrite ?Hq. }
  rewrite loop_body_eq, try_block_eq. unfold forwarded.
  destruct (o_input o) as [s|e]; [|by rewrite Hend].
  destruct (bool_decide _); [done|]. unfold after_exit_test.
  destruct (PyStr.startswith "!" s).
  { rewrite run_shell_eq. destruct (o_shell o) as [[]|e]; [done|].
    destruct (is_Exception e); [done|by rewrite Hend]. }
  destruct (PyStr.startswith ">" s).
  { rewrite run_python_eq. destruct (o_python_repl o) as [[]|e]; [done|].
    destruct (is_Exception e); [done|by rewrite Hend]. }
  destruct (PyStr.truthy _); [|done]. cbn [negb andb].
  destruct (forward kb s o) as [t [[]|e]]; [done|by rewrite Hend].
Qed.

Lemma retrievals_of_view t :
  retrievals t =
    omap (λ i, match i with Retrieved q k => Some (q, k) | _ => None end)
      (kb_view t).
Proof.
  unfold retrievals, kb_view. induction t as [|ev t IH]; [done|].
  destruct ev; cbn; by rewrite ?IH.
Qed.

Lemma stores_of_view t :
  stores t =
    omap (λ i, match i with Stored a => Some a | _ => None end) (kb_view t).
Proof.
  unfold stores, kb_view. induction t as [|ev t IH]; [done|].
  destruct ev; cbn; by rewrite ?IH.
Qed.

Lemma loop_body_no_kb kb o :
  kb_used kb = false →
  retrievals (trace (loop_body kb o)) = [] ∧ stores (trace (loop_body kb o)) = [].
Proof.
  intros Hk. rewrite retrievals_of_view, stores_of_view, loop_body_kb_view.
  destruct (o_input o) as [s|e]; [|done].
  destruct (forwarded s); [|done].
  rewrite <-retrievals_of_view, <-stores_of_view. by apply forward_no_kb.
Qed.

(** The knowledge-base traffic of one iteration. *)
Lemma loop_body_kb_shape kb o v :
  kb_used kb = true → kb_discipline (kb_str kb) v →
  kb_discipline (kb_str kb) (kb_view (trace (loop_body kb o)) ++ v).
Proof.
  intros Hk Hv. rewrite loop_body_kb_view.
  destruct (o_input o) as [s|e]; [|done].
  destruct (forwarded s); [|done]. rewrite forward_kb_view by done.
  destruct (forwarding_prep_returns kb o); [|by constructor].
  destruct (o_agent o); simpl; eauto using kb_discipline.
Qed.

Lemma while_true_kb_discipline kb script :
  kb_used kb = true →
  kb_discipline (kb_str kb) (kb_view (trace (while_true (loop_body kb) script))).
Proof.
  intros Hk.
  apply (while_true_trace_ind (λ t, kb_discipline (kb_str kb) (kb_view t))).
  - constructor.
  - intros o. rewrite <-(app_nil_r (kb_view _)).
    apply loop_body_kb_shape; [done|constructor].
  - intros o t Ht. rewrite kb_view_app. by apply loop_body_kb_shape.
Qed.

Lemma while_true_no_kb kb script :
  kb_used kb = false →
  retrievals (trace (while_true (loop_body kb) script)) = []
  ∧ stores (trace (while_true (loop_body kb) script)) = [].
Proof.
  intros Hk.
  apply (while_true_trace_ind (λ t, retrievals t = [] ∧ stores t = [])); [done|..].
  - intros o. by apply loop_body_no_kb.
  - intros o t [Hr Hs]. destruct (loop_body_no_kb kb o Hk) as [Hr' Hs'].
    unfold retrievals, stores in *. by rewrite !omap_app, Hr, Hs, Hr', Hs'.
Qed.

Lemma query_view_of_view t : query_view t = drop_stores (kb_view t).
Proof.
  unfold query_view, drop_stores, kb_view. induction t as [|ev t IH]; [done|].
  destruct ev; cbn; by rewrite ?IH.
Qed.

Lemma discipline_retrieved_first k v :
  kb_discipline k v → retrieved_first k (drop_stores v).
Proof. induction 1; cbn; eauto using retrieved_first. Qed.

(** The one-shot branch retrieves the query, then asks the agent. *)
Lemma one_shot_query_view args kb o :
  kb_used kb = true →
  query_view (trace (one_shot args kb o)) =
    Retrieved (PyStr.join " " (query args)) (kb_str kb) ::
    match o_retrieve o with
    | Raise _ => []
    | Ok _ => [Asked (PyStr.join " " (query args))]
    end.
Proof.
  intros Hk. rewrite query_view_of_view, one_shot_kb_view by done.
  by destruct (o_retrieve o), (o_agent o).
Qed.

(** The traffic of the loop is that of the iterations it ran. *)
Lemma while_true_kb_view kb script :
  ∃ ran, ran `prefix_of` script
         ∧ kb_view (trace (while_true (loop_body kb) script))
           = iteration_views kb ran.
Proof.
  induction script as [|o script (ran & Hp & IH)].
  { exists []. by split. }
  rewrite while_true_cons. unfold iteration_views in *.
  destruct (loop_body kb o) as [t [[]|e]] eqn:E; cbn [trace fst].
  - exists (o :: ran). split; [by apply prefix_cons|].
    cbn [flat_map]. by rewrite kb_view_app, IH, E.
  - exists [o]. split; [apply prefix_cons, prefix_nil|].
    cbn [flat_map]. by rewrite E, app_nil_r.
  - exists [o]. split; [apply prefix_cons, prefix_nil|].
    cbn [flat_map]. by rewrite E, app_nil_r.
Qed.

(** Which knowledge base a run uses (line 121). *)
Lemma knowledge_base_choice args env :
  let kb := get_knowledge_base_id args (module_init env) in
  (kb_used kb = true ↔
     (∃ v, knowledge_base_id args = Some v ∧ v ≠ "")
     ∨ (∃ v, env !! "STRANDS_KNOWLEDGE_BASE_ID" = Some v ∧ v ≠ ""))
  ∧ (∀ v, knowledge_base_id args = Some v → v ≠ "" → kb = Some v)
  ∧ (PyStr.truthy_opt (knowledge_base_id args) = false →
       kb = env !! "STRANDS_KNOWLEDGE_BASE_ID").
Proof.
  unfold get_knowledge_base_id, kb_used, PyStr.or_opt.
  rewrite module_init_other by done.
  destruct (PyStr.truthy_opt (knowledge_base_id args)) eqn:Ea.
  - apply truthy_opt_true in Ea as (v & Hv & Hne). rewrite Hv. cbn.
    split; [|split; [|done]].
    + rewrite truthy_true. split; [|done]. intros _. left. by exists v.
    + by intros v' [= <-] _.
  - split; [|split; [|done]].
    + rewrite truthy_opt_true. split; [by right|].
      intros [(v & Hv & Hne)|H]; [|done].
      assert (PyStr.truthy_opt (knowledge_base_id args) = true)
        by (apply truthy_opt_true; by exists v).
      congruence.
    + intros v Hv Hne.
      assert (PyStr.truthy_opt (knowledge_base_id args) = true)
        by (apply truthy_opt_true; by exists v).
      congruence.
Qed.

End KnowledgeBase.

(** C4 fails as stated: with [--kb ""] the argument is given, and with
    [STRANDS_KNOWLEDGE_BASE_ID=] the variable is set, yet no knowledge
    base is used: the run makes no retrieval and stores nothing. *)
Lemma empty_knowledge_base_id_is_unused :
  is_Some (knowledge_base_id (cli ["hi"] (Some "")))
  ∧ kb_used (get_knowledge_base_id (cli ["hi"] (Some "")) (module_init ∅)) = false
  ∧ trace (program (cli ["hi"] (Some "")) ∅ (typed "") []) =
      [ LoadModel "bedrock" "{}"; LoadSystemPrompt; Uuid4;
        NewAgent "model" tools "PROMPT" "00000000-0000-4000-8000-000000000000";
        LogDebug "Agent initialized with %d tools" ["28"];
        LogDebug "Processing command line query: %s" ["hi"];
        CallAgent "hi" None ]
  ∧ is_Some (({[ "STRANDS_KNOWLEDGE_BASE_ID" := "" ]} : environ)
               !! "STRANDS_KNOWLEDGE_BASE_ID")
  ∧ kb_used (get_knowledge_base_id (cli ["hi"] None)
               (module_init {[ "STRANDS_KNOWLEDGE_BASE_ID" := "" ]})) = false.
Proof.
  split; [by eexists|]. split; [reflexivity|]. split; [reflexivity|].
  split; [by eexists|reflexivity].
Qed.

(** C4, amended: a knowledge base is used exactly when [--kb] is given
    with a value that is not empty or [STRANDS_KNOWLEDGE_BASE_ID] is set
    to one (the argument wins).  When none is used, a run makes no
    retrieval and stores nothing.  When one is used, every question put
    to the agent in the run comes right after the retrieval of that same
    query from the knowledge base; a one-shot run retrieves the query,
    then asks the agent if the retrieval returned; the traffic of an
    interactive run is that of the iterations it ran, in the order
    retrieval, agent, store; an iteration that forwards the line [s]
    retrieves [s], then asks the agent [s] if the calls in between
    returned, then stores the conversation, made of [s] and the response
    of the agent, if the agent returned. *)
Theorem knowledge_base_use (args : Args) (env : environ) (o : Oracle)
    (script : list Oracle) :
  let kb := get_knowledge_base_id args (module_init env) in
  let k := kb_str kb in
  let q := PyStr.join " " (query args) in
  let t := trace (program args env o script) in
  (kb_used kb = true ↔
     (∃ v, knowledge_base_id args = Some v ∧ v ≠ "")
     ∨ (∃ v, env !! "STRANDS_KNOWLEDGE_BASE_ID" = Some v ∧ v ≠ ""))
  ∧ (∀ v, knowledge_base_id args = Some v → v ≠ "" → kb = Some v)
  ∧ (PyStr.truthy_opt (knowledge_base_id args) = false →
       kb = env !! "STRANDS_KNOWLEDGE_BASE_ID")
  ∧ (kb_used kb = false → retrievals t = [] ∧ stores t = [])
  ∧ (kb_used kb = true →
       retrieved_first k (query_view t)
       ∧ (query args ≠ [] → setup_returns o = true →
            query_view t =
              Retrieved q k ::
              match o_retrieve o with
              | Raise _ => []
              | Ok _ => [Asked q]
              end)
       ∧ (query args = [] →
            kb_discipline k (kb_view t)
            ∧ ∃ ran, ran `prefix_of` script
                     ∧ kb_view t = iteration_views kb ran)
       ∧ (∀ o' s, o_input o' = Ok s →
            PyStr.lower s ∉ ["exit"; "quit"] →
            PyStr.startswith "!" s = false → PyStr.startswith ">" s = false →
            PyStr.strip s ≠ "" →
            kb_view (trace (loop_body kb o')) =
              Retrieved s k ::
              if forwarding_prep_returns kb o' then
                Asked s ::
                match o_agent o' with
                | Ok r => [Stored [s; r; k]]
                | Raise _ => []
                end
              else [])).
Proof.
  intros kb k q t.
  destruct (knowledge_base_choice args env) as (Hiff & Harg & Henv).
  do 3 (split; [done|]).
  assert (Hrun : ∃ t0 t1,
    kb_view t0 = [] ∧ t = t0 ++ t1
    ∧ (kb_used kb = false → retrievals t1 = [] ∧ stores t1 = [])
    ∧ (kb_used kb = true → retrieved_first k (query_view t1))
    ∧ (query args ≠ [] → setup_returns o = true →
         t1 = trace (one_shot args kb o))
    ∧ (query args = [] →
         (kb_used kb = true → kb_discipline k (kb_view t1))
         ∧ ∃ ran, ran `prefix_of` script ∧ kb_view t1 = iteration_views kb ran)).
  { subst t. destruct (query args) as [|x l] eqn:Hq.
    - destruct (program_interactive args env o script Hq) as (t0 & Hc & _ & _ & Hr).
      fold kb in Hr. exists t0.
      assert (Hnil : ∃ t1, trace (program args env o script) = t0 ++ t1
                ∧ (t1 = [] ∨ t1 = trace (while_true (loop_body kb) script))).
      { destruct (setup_returns o); [destruct Hr as [_ Hr];
                                     destruct (welcome_readable o)|].
        - rewrite Hr. eexists. split; [reflexivity|by right].
        - destruct Hr as [e ->]. exists []. by rewrite app_nil_r; auto.
        - destruct Hr as [e ->]. exists []. by rewrite app_nil_r; auto. }
      destruct Hnil as (t1 & -> & Ht1). exists t1.
      split; [by apply kb_view_quiet|]. split; [done|].
      assert (Hd : kb_used kb = true → kb_discipline k (kb_view t1)).
      { intros Hk. destruct Ht1 as [-> | ->]; [constructor|].
        by apply while_true_kb_discipline. }
      split; [|split; [|split; [done|]]].
      + intros Hk. destruct Ht1 as [-> | ->]; [done|by apply while_true_no_kb].
      + intros Hk. rewrite query_view_of_view.
        by apply discipline_retrieved_first, Hd.
      + intros _. split; [done|].
        destruct Ht1 as [-> | ->];
          [exists []; split; [apply prefix_nil|done]|].
        apply while_true_kb_view.
    - assert (Hq' : query args ≠ []) by by rewrite Hq.
      destruct (program_one_shot args env o script Hq') as (t0 & Hc & _ & _ & Hr).
      fold kb in Hr. rewrite <-Hq. exists t0.
      destruct (setup_returns o).
      + destruct Hr as [_ ->]. exists (trace (one_shot args kb o)).
        split; [by apply kb_view_quiet|]. split; [done|].
        split; [by apply one_shot_no_kb|]. split; [|by split].
        intros Hk. rewrite one_shot_query_view by done.
        destruct (o_retrieve o); eauto using retrieved_first.
      + destruct Hr as [e ->]. exists [].
        split; [by apply kb_view_quiet|]. split; [by rewrite app_nil_r|].
        split; [done|]. split; [constructor|by split]. }
  destruct Hrun as (t0 & t1 & H0 & Ht & Hno & Hyes & Hone & Hloop).
  assert (Hv : kb_view t = kb_view t1) by by rewrite Ht, kb_view_app, H0.
  assert (Hw : query_view t = query_view t1) by by rewrite !query_view_of_view, Hv.
  split.
  - intros Hk. destruct (Hno Hk) as [Hr Hs].
    by rewrite retrievals_of_view, stores_of_view, Hv,
      <-retrievals_of_view, <-stores_of_view.
  - intros Hk. rewrite Hv, Hw. split; [by apply Hyes|]. split; [|split].
    + intros Hq Hs. rewrite (Hone Hq Hs). by apply one_shot_query_view.
    + intros Hq. destruct (Hloop Hq) as [Hd Hran]. split; [by apply Hd|done].
    + intros o' s Hi Hx Hb Hg Hs. rewrite loop_body_kb_view, Hi.
      unfold forwarded.
      rewrite (bool_decide_eq_false_2 _ Hx), Hb, Hg, (proj2 (truthy_true _) Hs).
      by apply forward_kb_view.
Qed.

Lemma knowledge_base_use_witness :
  query_view (trace (program (cli ["what"; "is"; "new"] (Some "KB1")) ∅
                       (typed "") []))
  = [Retrieved "what is new" "KB1"; Asked "what is new"]
  ∧ kb_view (trace (loop_body (Some "KB1") (typed "hello")))
    = [Retrieved "hello" "KB1"; Asked "hello";
       Stored ["hello"; "answer"; "KB1"]].
Proof.
  destruct (knowledge_base_use (cli ["what"; "is"; "new"] (Some "KB1")) ∅
              (typed "") []) as (_ & _ & _ & _ & H).
  destruct H as (_ & H1 & _ & H2); [reflexivity|]. split.
  - apply H1; [discriminate|reflexivity].
  - apply (H2 (typed "hello") "hello"); [reflexivity| |reflexivity..|discriminate].
    intros Hin. by repeat (apply elem_of_cons in Hin as [Hin|Hin]; [|]);
      try discriminate Hin; apply elem_of_nil in Hin.
Defined.

(** * Further properties of the module and of [main] *)

(** ** The shape of a run *)

Section Shape.

Implicit Types (kb : option string) (o : Oracle) (s : string).

Lemma setup_value args env o kb :
  outcome (setup args env o) = Ok kb → kb = get_knowledge_base_id args env.
Proof.
  unfold setup. unfold_M.
  destruct (debug args), (o_load_model o), (o_load_system_prompt o),
    (o_new_agent o) as [[]|]; cbn; congruence.
Qed.

(** A run, block by block. *)
Lemma program_unfold args env o script :
  let kb := get_knowledge_base_id args (module_init env) in
  let st := setup args (module_init env) o in
  program args env o script =
    match outcome st with
    | Raise e => (trace st, Propagated e)
    | Ok _ =>
        match query args with
        | _ :: _ =>
            (trace st ++ trace (one_shot args kb o),
             finish (outcome (one_shot args kb o)))
        | [] =>
            match outcome (interactive_start o) with
            | Raise e => (trace st ++ trace (interactive_start o), Propagated e)
            | Ok _ =>
                (trace st ++ trace (interactive_start o)
                 ++ trace (while_true (loop_body kb) script),
                 outcome (while_true (loop_body kb) script))
            end
        end
    end.
Proof.
  intros kb st. subst st. unfold program, main.
  pose proof (setup_value args (module_init env) o) as Hv.
  destruct (setup args (module_init env) o) as [t0 [kb'|e]]; [|done].
  cbn in Hv. rewrite (Hv kb' eq_refl). fold kb. cbn. unfold dispatch.
  destruct (query args) as [|x l].
  - destruct (interactive_start o) as [t1 [[]|e]]; cbn; [|done].
    destruct (while_true (loop_body kb) script) as [t2 r]. done.
  - destruct (one_shot args kb o) as [t1 [[]|e]]; cbn; by rewrite ?app_nil_r.
Qed.

Lemma setup_events args env o :
  Forall (λ ev, is_setup_event ev = true) (trace (setup args env o)).
Proof.
  unfold setup. unfold_M.
  destruct (debug args), (o_load_model o), (o_load_system_prompt o),
    (o_new_agent o) as [[]|]; cbn; repeat constructor.
Qed.

Lemma interactive_start_events o :
  Forall (λ ev, is_start_event ev = true) (trace (interactive_start o)).
Proof.
  unfold interactive_start, first_text. unfold_M.
  destruct (o_welcome o) as [[st ct]|e]; cbn [tr_status tr_content];
    [|repeat constructor].
  destruct (String.eqb st "success");
    [destruct ct as [|b ct]; [|destruct (b !! "text")]|];
    cbn; repeat constructor.
Qed.

Lemma one_shot_events args kb o :
  Forall (λ ev, is_one_shot_event ev = true) (trace (one_shot args kb o)).
Proof.
  unfold one_shot. unfold_M.
  destruct (kb_used kb), (o_retrieve o) as [[]|], (o_agent o),
    (o_store o) as [[]|]; cbn; repeat constructor.
Qed.

Lemma after_exit_test_events kb s o :
  Forall (λ ev, is_block_event ev = true) (trace (after_exit_test kb s o)).
Proof.
  unfold after_exit_test.
  destruct (PyStr.startswith "!" s).
  { rewrite run_shell_eq. destruct (o_shell o) as [[]|e];
      [|destruct (is_Exception e)]; repeat constructor. }
  destruct (PyStr.startswith ">" s).
  { rewrite run_python_eq. destruct (o_python_repl o) as [[]|e];
      [|destruct (is_Exception e)]; repeat constructor. }
  destruct (PyStr.truthy _); [|constructor].
  forward_cases kb o; cbn; repeat constructor.
Qed.

Lemma block_event_is_loop_event ev :
  is_block_event ev = true → is_loop_event ev = true.
Proof. by destruct ev. Qed.

Lemma try_block_events kb o :
  Forall (λ ev, is_loop_event ev = true) (trace (try_block kb o)).
Proof.
  rewrite try_block_eq. destruct (o_input o) as [s|e]; [|repeat constructor].
  destruct (bool_decide _); [repeat constructor|].
  pose proof (after_exit_test_events kb s o) as H.
  destruct (after_exit_test kb s o) as [t [[]|e]]; cbn in *;
    (constructor; [done|]);
    (eapply Forall_impl; [exact H|]); apply block_event_is_loop_event.
Qed.

Lemma loop_body_events kb o :
  Forall (λ ev, is_loop_event ev = true) (trace (loop_body kb o)).
Proof.
  pose proof (try_block_events kb o) as H. rewrite loop_body_eq.
  destruct (try_block kb o) as [t [c|e]]; [done|]. cbn in H.
  destruct (is_interrupt e); [|destruct (is_Exception e)]; cbn; [| |done];
    apply Forall_app; split; try done; repeat constructor.
Qed.

Lemma while_true_events kb script :
  Forall (λ ev, is_loop_event ev = true)
    (trace (while_true (loop_body kb) script)).
Proof.
  apply (while_true_trace_ind (Forall (λ ev, is_loop_event ev = true)));
    [constructor|apply loop_body_events|].
  intros o t Ht. apply Forall_app. split; [apply loop_body_events|done].
Qed.

End Shape.

(** ** Loading the module *)

(** X1: loading the module always leaves [STRANDS_TOOL_CONSOLE_MODE] at
    [enabled], whatever it was before; it changes no variable other than
    that one and the two OTEL ones, and it removes none. *)
Theorem module_init_frame (env : environ) :
  module_init env !! "STRANDS_TOOL_CONSOLE_MODE" = Some "enabled"
  ∧ (∀ k, k ∉ [ "OTEL_EXPORTER_OTLP_ENDPOINT"; "OTEL_EXPORTER_OTLP_HEADERS";
               "STRANDS_TOOL_CONSOLE_MODE" ] →
          module_init env !! k = env !! k)
  ∧ (∀ k, is_Some (env !! k) → is_Some (module_init env !! k)).
Proof.
  split; [|split].
  - rewrite module_init_eq. apply lookup_insert_eq.
  - intros k Hk. apply module_init_other; intros ->; apply Hk; in_trace.
  - intros k Hk. rewrite module_init_eq.
    destruct (PyStr.truthy_opt _); rewrite !lookup_insert;
      repeat case_decide; eauto.
Qed.

(** X2: loading the module a second time changes nothing. *)
Theorem module_init_idempotent (env : environ) :
  module_init (module_init env) = module_init env.
Proof.
  assert (Hh : module_init env !! "LANGFUSE_HOST" = env !! "LANGFUSE_HOST")
    by by apply module_init_other.
  assert (He : otel_endpoint (module_init env) = otel_endpoint env)
    by (unfold otel_endpoint; by rewrite Hh).
  assert (Ha : auth_token (module_init env) = auth_token env).
  { unfold auth_token. by rewrite !module_init_other. }
  rewrite (module_init_eq (module_init env)), Hh, He, Ha.
  rewrite (module_init_eq env).
  destruct (PyStr.truthy_opt _); apply map_eq; intros k;
    rewrite !lookup_insert; by repeat case_decide.
Qed.

(** X3: with [LANGFUSE_HOST] set, a key that is not set does not stop the
    module from loading: it is rendered as the text [None], so the header
    is the one the key [None] would give; with neither key set the header
    is the base64 text of [None:None]. *)
Theorem unset_keys_render_as_None (env : environ) (h : string) :
  env !! "LANGFUSE_HOST" = Some h → h ≠ "" →
  (env !! "LANGFUSE_PUBLIC_KEY" = None →
     module_init env !! "OTEL_EXPORTER_OTLP_HEADERS"
     = module_init (<["LANGFUSE_PUBLIC_KEY" := "None"]> env)
         !! "OTEL_EXPORTER_OTLP_HEADERS")
  ∧ (env !! "LANGFUSE_SECRET_KEY" = None →
     module_init env !! "OTEL_EXPORTER_OTLP_HEADERS"
     = module_init (<["LANGFUSE_SECRET_KEY" := "None"]> env)
         !! "OTEL_EXPORTER_OTLP_HEADERS")
  ∧ (env !! "LANGFUSE_PUBLIC_KEY" = None →
     env !! "LANGFUSE_SECRET_KEY" = None →
     module_init env !! "OTEL_EXPORTER_OTLP_HEADERS"
     = Some "Authorization=Basic Tm9uZTpOb25l").
Proof.
  intros Hh Hne.
  assert (Ht : PyStr.truthy_opt (env !! "LANGFUSE_HOST") = true).
  { apply truthy_opt_true. by exists h. }
  assert (Hhdr : ∀ env', PyStr.truthy_opt (env' !! "LANGFUSE_HOST") = true →
            module_init env' !! "OTEL_EXPORTER_OTLP_HEADERS"
            = Some ("Authorization=Basic " +:+ auth_token env')).
  { intros env' Ht'. rewrite module_init_eq, Ht'.
    rewrite lookup_insert_ne by done. apply lookup_insert_eq. }
  split; [|split].
  - intros Hp. rewrite !Hhdr; [|by rewrite lookup_insert_ne|done].
    unfold auth_token. rewrite lookup_insert_eq, lookup_insert_ne by done.
    by rewrite Hp.
  - intros Hs. rewrite !Hhdr; [|by rewrite lookup_insert_ne|done].
    unfold auth_token. rewrite lookup_insert_eq, lookup_insert_ne by done.
    by rewrite Hs.
  - intros Hp Hs. rewrite Hhdr by done. unfold auth_token. by rewrite Hp, Hs.
Qed.

Lemma unset_keys_render_as_None_witness :
  module_init {[ "LANGFUSE_HOST" := "https://cloud.langfuse.com" ]}
    !! "OTEL_EXPORTER_OTLP_HEADERS"
  = Some "Authorization=Basic Tm9uZTpOb25l".
Proof.
  destruct (unset_keys_render_as_None
              {[ "LANGFUSE_HOST" := "https://cloud.langfuse.com" ]}
              "https://cloud.langfuse.com") as (_ & _ & H);
    [reflexivity|discriminate|].
  apply H; reflexivity.
Defined.

(** X4: the calls of a run depend on the environment only through
    [STRANDS_KNOWLEDGE_BASE_ID], and not even on that when [--kb] is given
    with a value that is not empty; in particular the telemetry variables
    change no call of [main]. *)
Theorem run_reads_only_the_kb_variable (args : Args) (env1 env2 : environ)
    (o : Oracle) (script : list Oracle) :
  env1 !! "STRANDS_KNOWLEDGE_BASE_ID" = env2 !! "STRANDS_KNOWLEDGE_BASE_ID"
  ∨ PyStr.truthy_opt (knowledge_base_id args) = true →
  program args env1 o script = program args env2 o script.
Proof.
  intros [H|H]; unfold program.
  - apply main_env. by rewrite !module_init_other.
  - unfold main, setup, get_knowledge_base_id, PyStr.or_opt. by rewrite H.
Qed.

Lemma run_reads_only_the_kb_variable_witness :
  program (cli ["hi"] None)
    {[ "LANGFUSE_HOST" := "https://cloud.langfuse.com"; "HOME" := "/root" ]}
    (typed "") []
  = program (cli ["hi"] None) ∅ (typed "") [].
Proof.
  apply (run_reads_only_the_kb_variable (cli ["hi"] None)). left. reflexivity.
Defined.

(** ** Which lines are forwarded, and what the agent is given *)

Section Forwarding.

Implicit Types (kb : option string) (o : Oracle) (s : string).







Lemma head_no_prefix c r :
  c ≠ "!"%char → c ≠ ">"%char →
  PyStr.startswith "!" (String c r) = false
  ∧ PyStr.startswith ">" (String c r) = false.
Proof.
  intros Hb Hg. cbn [PyStr.startswith].
  destruct (Ascii.eqb_spec "!"%char c), (Ascii.eqb_spec ">"%char c);
    split; congruence.
Qed.

Lemma forward_agent_iff kb s o :
  let t := trace (forward kb s o) in
  (agent_prompts t = [s] ↔ forwarding_prep_returns kb o = true)
  ∧ (forwarding_prep_returns kb o = false →
       agent_prompts t = [] ∧ stores t = []).
Proof.
  forward_cases kb o; cbn; (split; [split|]); done.
Qed.

(** Everything of an iteration that reads a line bound for the forwarding
    block. *)
Lemma forwarded_line kb o s :
  o_input o = Ok s → PyStr.lower s ∉ ["exit"; "quit"] →
  PyStr.startswith "!" s = false → PyStr.startswith ">" s = false →
  PyStr.strip s ≠ "" →
  let t := trace (loop_body kb o) in
  shell_commands t = [] ∧ python_codes t = []
  ∧ (agent_prompts t = [s] ↔ forwarding_prep_returns kb o = true)
  ∧ (forwarding_prep_returns kb o = false →
       agent_prompts t = [] ∧ stores t = [])
  ∧ (kb_used kb = true → retrievals t = [(s, kb_str kb)])
  ∧ (RenderGoodbye ∉ trace (try_block kb o))
  ∧ trace (try_block kb o) =
      GetUserInput (nl +:+ "~ ") :: trace (forward kb s o).
Proof.
  intros Hi Hx Hb Hg Hs%truthy_true t.
  assert (Htb : trace (try_block kb o) =
                GetUserInput (nl +:+ "~ ") :: trace (forward kb s o)).
  { rewrite try_block_eq, Hi, (bool_decide_eq_false_2 _ Hx).
    unfold after_exit_test. rewrite Hb, Hg, Hs.
    by destruct (forward kb s o) as [t' [[]|e]]. }
  pose proof (loop_body_calls kb o) as Hc. fold t in Hc.
  rewrite (try_block_calls _ _ _ Hi Hx) in Hc.
  unfold after_exit_test in Hc. rewrite Hb, Hg, Hs in Hc.
  injection Hc as -> -> -> Hr ->.
  destruct (forward_calls kb s o) as (-> & -> & _).
  destruct (forward_agent_iff kb s o) as [Hiff Hno].
  do 4 (split; [done|]). split; [|split; [|done]].
  - intros Hk. subst t. rewrite retrievals_of_view, loop_body_kb_view, Hi.
    unfold forwarded.
    rewrite (bool_decide_eq_false_2 _ Hx), Hb, Hg, Hs. cbn [negb andb].
    rewrite forward_kb_view by done.
    destruct (forwarding_prep_returns kb o); [|done]. by destruct (o_agent o).
  - rewrite Htb. intros [H|H]%elem_of_cons; [discriminate H|].
    pose proof (after_exit_test_events kb s o) as He.
    unfold after_exit_test in He. rewrite Hb, Hg, Hs in He.
    rewrite Forall_forall in He. by specialize (He _ H).
Qed.

End Forwarding.

(** X5: dispatch looks at the line as it was typed: a line that begins
    with white space and is not blank is never an exit command and never
    a shell or python line, whatever follows the white space; it is
    forwarded unstripped, to the retrieval and to the agent. *)
Theorem leading_whitespace_line_is_forwarded (kb : option string) (o : Oracle)
    (c : ascii) (r : string) :
  o_input o = Ok (String c r) → PyStr.isspace c = true →
  PyStr.strip (String c r) ≠ "" →
  let t := trace (loop_body kb o) in
  (PyStr.lower (String c r) ∉ ["exit"; "quit"])
  ∧ (RenderGoodbye ∉ trace (try_block kb o))
  ∧ shell_commands t = [] ∧ python_codes t = []
  ∧ (forwarding_prep_returns kb o = true → agent_prompts t = [String c r])
  ∧ (kb_used kb = true → retrievals t = [(String c r, kb_str kb)]).
Proof.
  intros Hi Hc Hs t.
  destruct (isspace_char c Hc) as (Hl & He & Hq & Hb & Hg).
  assert (Hx : PyStr.lower (String c r) ∉ ["exit"; "quit"]).
  { rewrite lower_cons, Hl, !elem_of_cons, elem_of_nil.
    intros [H|[H|[]]]; injection H; congruence. }
  destruct (head_no_prefix c r Hb Hg) as [Hb' Hg'].
  destruct (forwarded_line kb o _ Hi Hx Hb' Hg' Hs)
    as (H1 & H2 & H3 & _ & H5 & H6 & _).
  do 4 (split; [done|]). split; [apply H3|done].
Qed.

Lemma leading_whitespace_line_is_forwarded_witness :
  agent_prompts (trace (loop_body None (typed " !ls"))) = [" !ls"]
  ∧ shell_commands (trace (loop_body None (typed " !ls"))) = [].
Proof.
  destruct (leading_whitespace_line_is_forwarded None (typed " !ls") " " "!ls"
              eq_refl eq_refl) as (_ & _ & Hs & _ & Ha & _); [discriminate|].
  split; [exact (Ha eq_refl)|exact Hs].
Defined.



(** X7: a forwarded line reaches the agent exactly when the calls before
    the agent call return: the retrieval (with a knowledge base), the
    welcome tool with a readable result, and the loading of the system
    prompt; when one of them fails the agent is not called and nothing is
    stored. *)
Theorem agent_called_iff_preparation_returns (kb : option string) (o : Oracle)
    (s : string) :
  o_input o = Ok s → PyStr.lower s ∉ ["exit"; "quit"] →
  PyStr.startswith "!" s = false → PyStr.startswith ">" s = false →
  PyStr.strip s ≠ "" →
  let t := trace (loop_body kb o) in
  (agent_prompts t = [s] ↔ forwarding_prep_returns kb o = true)
  ∧ (forwarding_prep_returns kb o = false →
       agent_prompts t = [] ∧ stores t = []).
Proof.
  intros Hi Hx Hb Hg Hs t.
  by destruct (forwarded_line kb o s Hi Hx Hb Hg Hs) as (_ & _ & H3 & H4 & _).
Qed.

Lemma agent_called_iff_preparation_returns_witness :
  agent_prompts
    (trace (loop_body (Some "KB")
       (sample (Ok "hello") (Ok ())
          (Raise (Exn (OtherException "ClientError") "no such knowledge base"))
          (Ok "answer")))) = [].
Proof.
  destruct (agent_called_iff_preparation_returns (Some "KB")
              (sample (Ok "hello") (Ok ())
                 (Raise (Exn (OtherException "ClientError")
                           "no such knowledge base"))
                 (Ok "answer")) "hello" eq_refl) as [_ H];
    [|reflexivity|reflexivity|discriminate|exact (proj1 (H eq_refl))].
  apply (bool_decide_unpack _). vm_compute. exact I.
Defined.

Section SystemPrompt.

Implicit Types (kb : option string) (o : Oracle) (s : string).

Lemma system_prompts_app t1 t2 :
  system_prompts (t1 ++ t2) = system_prompts t1 ++ system_prompts t2.
Proof. apply omap_app. Qed.

Lemma loop_body_system_prompts kb o :
  system_prompts (trace (loop_body kb o))
  = system_prompts (trace (try_block kb o)).
Proof.
  rewrite loop_body_eq. destruct (try_block kb o) as [t [c|e]]; [done|].
  destruct (is_interrupt e); [|destruct (is_Exception e)]; cbn;
    by rewrite ?system_prompts_app, ?app_nil_r.
Qed.

Lemma forward_system_prompt kb s o base r :
  forwarding_prep_returns kb o = true →
  o_load_system_prompt o = Ok base → o_welcome o = Ok r →
  ∃ text,
    system_prompts (trace (forward kb s o)) =
      [Some (base +:+ nl +:+ nl +:+ "Welcome Text Reference:" +:+ nl +:+ text)]
    ∧ (tr_status r ≠ "success" → text = "")
    ∧ (tr_status r = "success" →
         ∃ b rest, tr_content r = b :: rest ∧ b !! "text" = Some text).
Proof.
  unfold forwarding_prep_returns, welcome_readable, returns, forward, first_text.
  unfold_M. intros Hprep Hp Hw. rewrite Hp, Hw in *.
  destruct r as [st ct]. cbn [tr_status tr_content] in *.
  destruct (String.eqb_spec st "success") as [->|Hst].
  - destruct ct as [|b ct]; [by rewrite andb_false_r in Hprep|].
    destruct (b !! "text") as [text|] eqn:Hb;
      [|by rewrite andb_false_r in Hprep].
    exists text.
    destruct (kb_used kb), (o_retrieve o) as [[]|], (o_agent o),
      (o_store o) as [[]|]; try discriminate Hprep; cbn;
      (split; [done|]); (split; [done|]); intros _; by exists b, ct.
  - exists "".
    destruct (kb_used kb), (o_retrieve o) as [[]|], (o_agent o),
      (o_store o) as [[]|]; try discriminate Hprep; cbn;
      (split; [done|]); (split; [done|]); intros H; by destruct Hst.
Qed.

End SystemPrompt.

(** X8: the agent call of an iteration overrides the system prompt with
    the base prompt loaded in that iteration, then a blank line, the line
    [Welcome Text Reference:] and the welcome text, which is the text of
    the first content block of a successful welcome result and empty when
    the welcome tool did not succeed; the one-shot agent call overrides
    nothing. *)
Theorem forwarded_system_prompt :
  (∀ kb o s base r,
     o_input o = Ok s → PyStr.lower s ∉ ["exit"; "quit"] →
     PyStr.startswith "!" s = false → PyStr.startswith ">" s = false →
     PyStr.strip s ≠ "" →
     forwarding_prep_returns kb o = true →
     o_load_system_prompt o = Ok base → o_welcome o = Ok r →
     ∃ text,
       system_prompts (trace (loop_body kb o)) =
         [Some (base +:+ nl +:+ nl +:+ "Welcome Text Reference:" +:+ nl
                +:+ text)]
       ∧ (tr_status r ≠ "success" → text = "")
       ∧ (tr_status r = "success" →
            ∃ b rest, tr_content r = b :: rest ∧ b !! "text" = Some text))
  ∧ (∀ args kb o,
       Forall (λ sp, sp = None) (system_prompts (trace (one_shot args kb o)))).
Proof.
  split.
  - intros kb o s base r Hi Hx Hb Hg Hs Hprep Hp Hw.
    destruct (forwarded_line kb o s Hi Hx Hb Hg Hs) as (_ & _ & _ & _ & _ & _ & Ht).
    rewrite loop_body_system_prompts, Ht.
    apply (forward_system_prompt kb s o base r Hprep Hp Hw).
  - intros args kb o. unfold one_shot. unfold_M.
    destruct (kb_used kb), (o_retrieve o) as [[]|], (o_agent o),
      (o_store o) as [[]|]; cbn; repeat constructor.
Qed.

Lemma forwarded_system_prompt_witness :
  ∃ text,
    system_prompts (trace (loop_body None (typed "hello"))) =
      [Some ("PROMPT" +:+ nl +:+ nl +:+ "Welcome Text Reference:" +:+ nl
             +:+ text)].
Proof.
  destruct forwarded_system_prompt as [H _].
  destruct (H None (typed "hello") "hello" "PROMPT" welcome_ok) as (text & Ht & _);
    [reflexivity| |reflexivity|reflexivity|discriminate|reflexivity|reflexivity
    |reflexivity|by exists text].
  apply (bool_decide_unpack _). vm_compute. exact I.
Defined.

(** X9: a prefix with nothing after it still runs its tool: the line made
    of the exclamation mark and white space [w] (possibly none) runs the
    shell on [w] itself, and the line made of the greater-than sign and
    white space runs python_repl on the empty code. *)
Theorem bare_prefix_runs_the_tool (kb : option string) (o : Oracle) (w : string) :
  PyStr.strip w = "" →
  (o_input o = Ok ("!" +:+ w) →
     shell_commands (trace (loop_body kb o)) = [w]
     ∧ agent_prompts (trace (loop_body kb o)) = [])
  ∧ (o_input o = Ok (">" +:+ w) →
     python_codes (trace (loop_body kb o)) = [""]
     ∧ agent_prompts (trace (loop_body kb o)) = []).
Proof.
  intros Hw. split; intros Hi; pose proof (loop_body_calls kb o) as Hc.
  - assert (Hb : PyStr.startswith "!" ("!" +:+ w) = true) by done.
    rewrite (try_block_calls _ _ _ Hi (bang_not_exit _ Hb)) in Hc.
    unfold after_exit_test in Hc. rewrite Hb, run_shell_calls in Hc.
    by injection Hc as -> _ -> _ _.
  - assert (Hg : PyStr.startswith ">" (">" +:+ w) = true) by done.
    rewrite (try_block_calls _ _ _ Hi (gt_not_exit _ Hg)) in Hc.
    unfold after_exit_test in Hc.
    assert (Hb : PyStr.startswith "!" (">" +:+ w) = false) by done.
    rewrite Hb, Hg, run_python_calls in Hc.
    injection Hc as _ -> -> _ _.
    change ("" +:+ w) with w. by rewrite Hw.
Qed.

Lemma bare_prefix_runs_the_tool_witness :
  python_codes (trace (loop_body None (typed ">  "))) = [""].
Proof.
  destruct (bare_prefix_runs_the_tool None (typed ">  ") "  " eq_refl) as [_ H].
  exact (proj1 (H eq_refl)).
Defined.

(** ** Errors outside the loop *)

Section OutsideLoop.

Implicit Types (kb : option string) (o : Oracle) (s : string).

(** A call of [setup] that raises ends it with that exception, and an
    exception that leaves [setup] was raised by one of its calls. *)
Lemma setup_raise args env o :
  (∀ ev e, ev ∈ trace (setup args env o) → answer o ev = Some e →
           outcome (setup args env o) = Raise e)
  ∧ (∀ e, outcome (setup args env o) = Raise e →
          ∃ ev, ev ∈ trace (setup args env o) ∧ answer o ev = Some e).
Proof.
  unfold setup. unfold_M.
  destruct (debug args);
    destruct (o_load_model o) as [m|e1] eqn:H1;
    destruct (o_load_system_prompt o) as [p|e2] eqn:H2;
    destruct (o_new_agent o) as [[]|e3] eqn:H3; cbn; split;
    try (intros ev e Hin Ha; split_elem Hin; cbn in Ha;
         rewrite ?H1, ?H2, ?H3 in Ha; cbn in Ha;
         first [discriminate Ha | by injection Ha as ->]);
    intros e He; try discriminate He; injection He as <-;
    first
      [ eexists (LoadModel _ _); split; [in_trace|cbn; by rewrite H1]
      | exists LoadSystemPrompt; split; [in_trace|cbn; by rewrite H2]
      | eexists (NewAgent _ _ _ _); split; [in_trace|cbn; by rewrite H3] ].
Qed.

Lemma one_shot_raise args kb o :
  (∀ ev e, ev ∈ trace (one_shot args kb o) → answer o ev = Some e →
           outcome (one_shot args kb o) = Raise e)
  ∧ (∀ e, outcome (one_shot args kb o) = Raise e →
          ∃ ev, ev ∈ trace (one_shot args kb o) ∧ answer o ev = Some e).
Proof.
  unfold one_shot. unfold_M.
  destruct (kb_used kb);
    destruct (o_retrieve o) as [[]|e1] eqn:H1;
    destruct (o_agent o) as [a|e2] eqn:H2;
    destruct (o_store o) as [[]|e3] eqn:H3; cbn; split;
    try (intros ev e Hin Ha; split_elem Hin; cbn in Ha;
         rewrite ?H1, ?H2, ?H3 in Ha; cbn in Ha;
         first [discriminate Ha | by injection Ha as ->]);
    intros e He; try discriminate He; injection He as <-;
    first
      [ eexists (ToolRetrieve _ _); split; [in_trace|cbn; by rewrite H1]
      | eexists (CallAgent _ _); split; [in_trace|cbn; by rewrite H2]
      | eexists (StoreConversation _); split; [in_trace|cbn; by rewrite H3] ].
Qed.

(** Neither [setup] nor the one-shot branch prints or renders anything. *)
Lemma silent_events t :
  Forall (λ ev, is_setup_event ev = true ∨ is_one_shot_event ev = true) t →
  (∀ m, PrintLine m ∉ t) ∧ (RenderGoodbye ∉ t)
  ∧ (∀ x, RenderWelcome x ∉ t) ∧ (ToolWelcome ∉ t).
Proof.
  rewrite Forall_forall. intros H.
  split; [|split; [|split]];
    [intros m Hin|intros Hin|intros x Hin|intros Hin];
    by destruct (H _ Hin).
Qed.

(** The events of a run given a query. *)
Lemma program_one_shot_events args env o script :
  query args ≠ [] →
  Forall (λ ev, is_setup_event ev = true ∨ is_one_shot_event ev = true)
    (trace (program args env o script)).
Proof.
  intros Hq. rewrite program_unfold.
  pose proof (setup_events args (module_init env) o) as Hse.
  pose proof (one_shot_events args
                (get_knowledge_base_id args (module_init env)) o) as Hoe.
  assert (Hs : Forall (λ ev, is_setup_event ev = true ∨ is_one_shot_event ev = true)
                 (trace (setup args (module_init env) o))).
  { eapply Forall_impl; [exact Hse|]. by left. }
  destruct (outcome (setup args (module_init env) o)); [|done].
  destruct (query args) as [|x l]; [done|]. cbn. apply Forall_app.
  split; [done|]. eapply Forall_impl; [exact Hoe|]. by right.
Qed.

End OutsideLoop.

(** X10: a run given a query handles no exception: the first call that
    raises, in the set-up or in the one-shot branch, a [KeyboardInterrupt]
    included, ends [main] with that exception; nothing is printed, no
    goodbye is rendered and the welcome tool is never called; and [main]
    fails only in that way. *)
Theorem one_shot_errors_leave_main (args : Args) (env : environ) (o : Oracle)
    (script : list Oracle) :
  query args ≠ [] →
  let run := program args env o script in
  (∀ ev e, raised_at o (trace run) ev e → outcome run = Propagated e)
  ∧ (∀ e, outcome run = Propagated e → ∃ ev, raised_at o (trace run) ev e)
  ∧ outcome run ≠ AwaitingInput
  ∧ (∀ m, PrintLine m ∉ trace run) ∧ (RenderGoodbye ∉ trace run)
  ∧ (∀ x, RenderWelcome x ∉ trace run) ∧ (ToolWelcome ∉ trace run).
Proof.
  intros Hq run. subst run. rewrite program_unfold.
  set (kb := get_knowledge_base_id args (module_init env)).
  destruct (setup_raise args (module_init env) o) as [Hs1 Hs2].
  destruct (one_shot_raise args kb o) as [Ho1 Ho2].
  pose proof (setup_events args (module_init env) o) as Hse.
  pose proof (one_shot_events args kb o) as Hoe.
  destruct (setup args (module_init env) o) as [t0 [kb'|e0]]; cbn in *.
  - destruct (query args) as [|x l]; [done|].
    destruct (one_shot args kb o) as [t1 r1]; cbn in *.
    split; [|split; [|split]].
    + intros ev e [[Hin|Hin]%elem_of_app Ha].
      * by specialize (Hs1 ev e Hin Ha).
      * by rewrite (Ho1 ev e Hin Ha).
    + intros e He. destruct r1 as [[]|e1]; [done|]. injection He as ->.
      destruct (Ho2 e eq_refl) as (ev & Hin & Ha). exists ev.
      split; [|done]. apply elem_of_app. by right.
    + by destruct r1.
    + apply silent_events, Forall_app. split.
      * eapply Forall_impl; [exact Hse|]. by left.
      * eapply Forall_impl; [exact Hoe|]. by right.
  - split; [|split; [|split]].
    + intros ev e [Hin Ha]. specialize (Hs1 ev e Hin Ha). by injection Hs1 as ->.
    + intros e [= ->]. destruct (Hs2 e eq_refl) as (ev & Hin & Ha). by exists ev.
    + done.
    + apply silent_events. eapply Forall_impl; [exact Hse|]. by left.
Qed.

Lemma one_shot_errors_leave_main_witness :
  outcome (program (cli ["hi"] None) ∅
             (sample (Ok "") (Ok ()) (Ok ()) (Raise (Exn KeyboardInterrupt "")))
             [])
  = Propagated (Exn KeyboardInterrupt "").
Proof.
  destruct (one_shot_errors_leave_main (cli ["hi"] None) ∅
              (sample (Ok "") (Ok ()) (Ok ()) (Raise (Exn KeyboardInterrupt "")))
              []) as [H _]; [discriminate|].
  apply (H (CallAgent "hi" None)). split; [vm_compute; in_trace|reflexivity].
Defined.

(** ** The welcome text *)

(** The cases of [H : ev ∈ [e1; ...; en]] that are not ruled out by the
    constructors; each leaves [H : ev = ei]. *)
Ltac elem_cases H :=
  repeat
    match type of H with
    | _ ∈ _ :: _ => apply elem_of_cons in H as [H|H]; [try discriminate H|]
    | _ ∈ [] => by apply elem_of_nil in H
    end.

Section Welcome.

Implicit Types (kb : option string) (o : Oracle) (s : string).

(** What the start-up does with the answer of the welcome tool. *)
Lemma interactive_start_eq o :
  interactive_start o =
    match o_welcome o with
    | Raise e =>
        ([LogDebug "Starting interactive mode" []; ToolWelcome], Raise e)
    | Ok r =>
        if String.eqb (tr_status r) "success" then
          match tr_content r with
          | [] =>
              ([LogDebug "Starting interactive mode" []; ToolWelcome],
               Raise (Exn IndexError "list index out of range"))
          | b :: _ =>
              match b !! "text" with
              | None =>
                  ([LogDebug "Starting interactive mode" []; ToolWelcome],
                   Raise (Exn KeyError "'text'"))
              | Some text =>
                  ([LogDebug "Starting interactive mode" []; ToolWelcome;
                    RenderWelcome text], Ok ())
              end
          end
        else ([LogDebug "Starting interactive mode" []; ToolWelcome], Ok ())
    end.
Proof.
  unfold interactive_start, first_text. unfold_M.
  destruct (o_welcome o) as [[st ct]|e]; cbn [tr_status tr_content]; [|done].
  destruct (String.eqb st "success"); [|done].
  destruct ct as [|b ct]; [done|]. by destruct (b !! "text").
Qed.

Lemma setup_ok args env o :
  setup_returns o = true →
  ∃ t, setup args env o = (t, Ok (get_knowledge_base_id args env)).
Proof.
  intros H. destruct (setup_run args env o) as (t & r & Heq & _ & _ & _ & Hr).
  rewrite H in Hr. destruct Hr as [-> _]. by exists t.
Qed.

Lemma not_setup_event_not_in args env o ev :
  is_setup_event ev = false → ev ∉ trace (setup args env o).
Proof.
  intros He Hin. pose proof (setup_events args env o) as H.
  rewrite Forall_forall in H. specialize (H _ Hin). congruence.
Qed.

Lemma not_loop_event_not_in kb script ev :
  is_loop_event ev = false → ev ∉ trace (while_true (loop_body kb) script).
Proof.
  intros He Hin. pose proof (while_true_events kb script) as H.
  rewrite Forall_forall in H. specialize (H _ Hin). congruence.
Qed.

(** An unreadable welcome result inside the forwarding block. *)
Lemma forward_unreadable kb s o r :
  retrieval_returns kb o = true → o_welcome o = Ok r →
  welcome_readable o = false → returns (o_load_system_prompt o) = true →
  ∃ e, outcome (forward kb s o) = Raise e
       ∧ (exn_class e = IndexError ∨ exn_class e = KeyError)
       ∧ agent_prompts (trace (forward kb s o)) = [].
Proof.
  unfold retrieval_returns, welcome_readable, returns, forward, first_text.
  unfold_M. intros Hr Hw. rewrite Hw. destruct r as [st ct].
  cbn [tr_status tr_content].
  destruct (kb_used kb), (o_retrieve o) as [[]|],
    (o_load_system_prompt o), (String.eqb st "success"); try done;
    (destruct ct as [|b ct]; [|destruct (b !! "text")]); try done;
    intros _ _; eexists; cbn; (split; [reflexivity|]); cbn; auto.
Qed.

Lemma start_renders o r txt :
  o_welcome o = Ok r →
  RenderWelcome txt ∈ trace (interactive_start o) ↔
    tr_status r = "success"
    ∧ ∃ b rest, tr_content r = b :: rest ∧ b !! "text" = Some txt.
Proof.
  intros Hw. rewrite interactive_start_eq, Hw. destruct r as [st ct].
  cbn [tr_status tr_content].
  destruct (String.eqb_spec st "success") as [->|Hst].
  - destruct ct as [|b ct]; [|destruct (b !! "text") as [text|] eqn:Hb];
      unfold trace; cbn [fst].
    + split; [intros Hin; elem_cases Hin|by intros (_ & ? & ? & ? & _)].
    + split.
      * intros Hin. elem_cases Hin. injection Hin as ->.
        split; [done|]. by exists b, ct.
      * intros (_ & b' & rest & [= <- <-] & Hb'). rewrite Hb in Hb'.
        injection Hb' as ->. in_trace.
    + split; [intros Hin; elem_cases Hin|].
      intros (_ & b' & rest & [= <- <-] & Hb'). congruence.
  - unfold trace; cbn [fst].
    split; [intros Hin; elem_cases Hin|by intros [? _]].
Qed.

(** An interactive run whose set-up returns. *)
Lemma interactive_trace args env o script :
  query args = [] → setup_returns o = true →
  let kb := get_knowledge_base_id args (module_init env) in
  trace (program args env o script) =
    trace (setup args (module_init env) o) ++ trace (interactive_start o)
    ++ match outcome (interactive_start o) with
       | Ok _ => trace (while_true (loop_body kb) script)
       | Raise _ => []
       end
  ∧ outcome (program args env o script) =
      match outcome (interactive_start o) with
      | Ok _ => outcome (while_true (loop_body kb) script)
      | Raise e => Propagated e
      end.
Proof.
  intros Hq Hs kb. rewrite program_unfold.
  destruct (setup_ok args (module_init env) o Hs) as [t0 ->].
  cbn [outcome trace fst snd]. rewrite Hq. fold kb.
  destruct (interactive_start o) as [t1 [[]|e]]; cbn [outcome trace fst snd];
    by rewrite ?app_nil_r.
Qed.

End Welcome.

(** X11: at start-up the welcome text is read outside any handler: when
    the welcome tool raises, or answers [success] without a first content
    block holding a text, the exception leaves [main] before a line is
    read and nothing is printed; the same unreadable answer inside an
    iteration is reported as an error and the loop goes on, without the
    agent being called. *)
Theorem startup_welcome_failure_leaves_main :
  (∀ args env o script,
     query args = [] → setup_returns o = true → welcome_readable o = false →
     let run := program args env o script in
     (∃ e, outcome run = Propagated e
           ∧ (o_welcome o = Raise e ∨ exn_class e = IndexError
              ∨ exn_class e = KeyError))
     ∧ input_prompts (trace run) = []
     ∧ (∀ m, PrintLine m ∉ trace run))
  ∧ (∀ kb o s r,
       o_input o = Ok s → PyStr.lower s ∉ ["exit"; "quit"] →
       PyStr.startswith "!" s = false → PyStr.startswith ">" s = false →
       PyStr.strip s ≠ "" →
       retrieval_returns kb o = true → o_welcome o = Ok r →
       welcome_readable o = false → returns (o_load_system_prompt o) = true →
       ∃ t msg,
         loop_body kb o = (t ++ [PrintLine (nl +:+ "Error: " +:+ msg)], Ok Continue)
         ∧ agent_prompts (trace (loop_body kb o)) = []).
Proof.
  split.
  - intros args env o script Hq Hs Hw run. subst run. rewrite program_unfold.
    destruct (setup_ok args (module_init env) o Hs) as [t0 Ht0].
    pose proof (setup_events args (module_init env) o) as Hse.
    rewrite Ht0 in *. cbn [outcome trace fst snd] in *. rewrite Hq.
    assert (Hstart : ∃ e,
      interactive_start o =
        ([LogDebug "Starting interactive mode" []; ToolWelcome], Raise e)
      ∧ (o_welcome o = Raise e ∨ exn_class e = IndexError
         ∨ exn_class e = KeyError)).
    { rewrite interactive_start_eq. unfold welcome_readable in Hw.
      destruct (o_welcome o) as [[st ct]|e]; cbn [tr_status tr_content] in *;
        [|by eexists; eauto].
      destruct (String.eqb st "success"); [|done].
      destruct ct as [|b ct]; [by eexists; eauto|].
      destruct (b !! "text"); [done|]. by eexists; eauto. }
    destruct Hstart as (e & -> & He). cbn.
    split; [by exists e|]. split.
    + unfold input_prompts. rewrite omap_app. cbn. rewrite app_nil_r.
      clear -Hse. induction Hse as [|ev t Hev _ IH]; [done|].
      destruct ev; try discriminate Hev; exact IH.
    + intros m [Hin|Hin]%elem_of_app.
      * rewrite Forall_forall in Hse. by specialize (Hse _ Hin).
      * elem_cases Hin.
  - intros kb o s r Hi Hx Hb Hg Hs Hr Hw Hu Hp.
    destruct (forwarded_line kb o s Hi Hx Hb Hg Hs)
      as (_ & _ & Hiff & Hno & _ & _ & Ht).
    destruct (forward_unreadable kb s o r Hr Hw Hu Hp) as (e & Ho & Hc & _).
    assert (Hprep : forwarding_prep_returns kb o = false).
    { unfold forwarding_prep_returns. by rewrite Hu, andb_false_r. }
    assert (Hob : outcome (try_block kb o) = Raise e).
    { rewrite try_block_eq, Hi, (bool_decide_eq_false_2 _ Hx).
      unfold after_exit_test.
      rewrite Hb, Hg, (proj2 (truthy_true _) Hs).
      destruct (forward kb s o) as [t' r']. cbn in Ho. by subst r'. }
    exists (trace (try_block kb o)), (exn_str e).
    split; [|by apply Hno].
    rewrite loop_body_eq. destruct (try_block kb o) as [t' r']. cbn in Hob.
    subst r'. unfold is_interrupt, is_Exception. by destruct Hc as [-> | ->].
Qed.

Lemma startup_welcome_failure_leaves_main_witness :
  outcome (program (cli [] None) ∅
             {| o_load_model := Ok "model"; o_load_system_prompt := Ok "PROMPT";
                o_uuid4 := "id"; o_new_agent := Ok (); o_retrieve := Ok ();
                o_welcome := Ok {| tr_status := "success"; tr_content := [] |};
                o_shell := Ok (); o_python_repl := Ok (); o_agent := Ok "answer";
                o_store := Ok (); o_input := Ok "" |}
             [typed "hello"])
  = Propagated (Exn IndexError "list index out of range").
Proof.
  destruct startup_welcome_failure_leaves_main as [H _].
  destruct (H (cli [] None) ∅
              {| o_load_model := Ok "model"; o_load_system_prompt := Ok "PROMPT";
                 o_uuid4 := "id"; o_new_agent := Ok (); o_retrieve := Ok ();
                 o_welcome := Ok {| tr_status := "success"; tr_content := [] |};
                 o_shell := Ok (); o_python_repl := Ok (); o_agent := Ok "answer";
                 o_store := Ok (); o_input := Ok "" |}
              [typed "hello"] eq_refl eq_refl eq_refl) as ((e & He & _) & _).
  reflexivity.
Defined.

(** X12: in interactive mode the welcome text is rendered exactly when the
    welcome tool answers [success], and it is then the text of its first
    content block; with any other status nothing is rendered and the loop
    starts all the same; the loop itself never renders it again, and a run
    given a query never renders it. *)
Theorem welcome_is_rendered_iff_success (args : Args) (env : environ)
    (o : Oracle) (script : list Oracle) :
  let run := program args env o script in
  (∀ r, query args = [] → setup_returns o = true → o_welcome o = Ok r →
     (∀ txt, RenderWelcome txt ∈ trace run ↔
               tr_status r = "success"
               ∧ ∃ b rest, tr_content r = b :: rest ∧ b !! "text" = Some txt)
     ∧ (tr_status r ≠ "success" → script = [] → outcome run = AwaitingInput))
  ∧ (query args ≠ [] → ∀ txt, RenderWelcome txt ∉ trace run).
Proof.
  intros run. subst run. split.
  - intros r Hq Hs Hw.
    destruct (interactive_trace args env o script Hq Hs) as [Ht Ho].
    rewrite Ht, Ho. split.
    + intros txt. rewrite <-(start_renders o r txt Hw), !elem_of_app.
      split; [|auto]. intros [Hin|[Hin|Hin]]; [|done|].
      * by destruct (not_setup_event_not_in _ _ _ (RenderWelcome txt) eq_refl Hin).
      * destruct (outcome (interactive_start o)); [|by apply elem_of_nil in Hin].
        by destruct (not_loop_event_not_in _ _ (RenderWelcome txt) eq_refl Hin).
    + intros Hst ->. rewrite interactive_start_eq, Hw.
      apply String.eqb_neq in Hst. by rewrite Hst.
  - intros Hq txt.
    by destruct (silent_events _ (program_one_shot_events args env o script Hq))
      as (_ & _ & H & _).
Qed.

Lemma welcome_is_rendered_iff_success_witness :
  RenderWelcome "Welcome" ∈ trace (program (cli [] None) ∅ (typed "") []).
Proof.
  destruct (welcome_is_rendered_iff_success (cli [] None) ∅ (typed "") [])
    as [H _].
  destruct (H welcome_ok eq_refl eq_refl eq_refl) as [H' _].
  apply H'. split; [reflexivity|]. eexists _, _. split; reflexivity.
Defined.

(** ** The goodbye message and the end of the loop *)

Section Goodbye.

Implicit Types (kb : option string) (o : Oracle) (s : string).

Lemma block_events_no_goodbye t :
  Forall (λ ev, is_block_event ev = true) t →
  (RenderGoodbye ∉ t) ∧ input_prompts t = [].
Proof.
  intros H. split.
  - rewrite Forall_forall in H. intros Hin. by specialize (H _ Hin).
  - induction H as [|ev t Hev _ IH]; [done|].
    destruct ev; try discriminate Hev; exact IH.
Qed.

(** An iteration renders the goodbye message exactly when it breaks, once
    and as its last event; and it reads exactly one line. *)
Lemma loop_body_goodbye kb o :
  input_prompts (trace (loop_body kb o)) = [nl +:+ "~ "]
  ∧ match outcome (loop_body kb o) with
    | Ok Break =>
        ∃ t, trace (loop_body kb o) = t ++ [RenderGoodbye] ∧ RenderGoodbye ∉ t
    | _ => RenderGoodbye ∉ trace (loop_body kb o)
    end.
Proof.
  assert (Hend : ∀ t e,
    input_prompts t = [nl +:+ "~ "] → RenderGoodbye ∉ t →
    let r := if is_interrupt e then (t ++ [RenderGoodbye], Ok Break)
             else if is_Exception e
                  then (t ++ [PrintLine (nl +:+ "Error: " +:+ exn_str e)],
                        Ok Continue)
                  else (t, Raise e) in
    input_prompts (trace r) = [nl +:+ "~ "]
    ∧ match outcome r with
      | Ok Break => ∃ t', trace r = t' ++ [RenderGoodbye] ∧ RenderGoodbye ∉ t'
      | _ => RenderGoodbye ∉ trace r
      end).
  { intros t e Hi Hn. unfold input_prompts in *.
    destruct (is_interrupt e); [|destruct (is_Exception e)]; cbn;
      rewrite ?omap_app, ?Hi; (split; [done|]).
    - by exists t.
    - rewrite elem_of_app. intros [H|H]; [done|]. elem_cases H.
    - done. }
  assert (Hg : ∀ t, RenderGoodbye ∉ t →
                    RenderGoodbye ∉ GetUserInput (nl +:+ "~ ") :: t).
  { intros t Hn [H|H]%elem_of_cons; [discriminate H|done]. }
  rewrite loop_body_eq, try_block_eq.
  destruct (o_input o) as [s|e].
  2:{ apply Hend; [done|]. intros H. elem_cases H. }
  destruct (bool_decide _).
  { split; [done|]. exists [GetUserInput (nl +:+ "~ ")]. split; [done|].
    intros H. elem_cases H. }
  destruct (block_events_no_goodbye _ (after_exit_test_events kb s o))
    as [Hn Hp].
  destruct (after_exit_test kb s o) as [t [[]|e]]; cbn in Hn, Hp.
  - split; [unfold input_prompts in *; cbn; by rewrite Hp|]. by apply Hg.
  - apply Hend; [unfold input_prompts in *; cbn; by rewrite Hp|by apply Hg].
Qed.

Lemma while_true_goodbye kb script :
  match outcome (while_true (loop_body kb) script) with
  | Returned =>
      ∃ t, trace (while_true (loop_body kb) script) = t ++ [RenderGoodbye]
           ∧ RenderGoodbye ∉ t
  | _ => RenderGoodbye ∉ trace (while_true (loop_body kb) script)
  end.
Proof.
  induction script as [|o script IH].
  { cbn. intros H. by apply elem_of_nil in H. }
  rewrite while_true_cons. destruct (loop_body_goodbye kb o) as [_ Hb].
  destruct (loop_body kb o) as [t [[]|e]]; cbn in *; [|done..].
  destruct (outcome (while_true (loop_body kb) script)).
  - destruct IH as (t' & -> & Hn). exists (t ++ t').
    split; [by rewrite app_assoc|]. rewrite elem_of_app. by intros [H|H].
  - rewrite elem_of_app. by intros [H|H].
  - rewrite elem_of_app. by intros [H|H].
Qed.

Lemma while_true_prompts kb script :
  let r := while_true (loop_body kb) script in
  Forall (λ p, p = nl +:+ "~ ") (input_prompts (trace r))
  ∧ length (input_prompts (trace r)) ≤ length script
  ∧ (outcome r = AwaitingInput →
       length (input_prompts (trace r)) = length script).
Proof.
  induction script as [|o script IH]; [by repeat constructor|].
  cbn zeta in *. rewrite while_true_cons.
  destruct (loop_body_goodbye kb o) as [Hp _].
  destruct (loop_body kb o) as [t [[]|e]]; cbn [trace outcome fst snd] in *.
  - destruct IH as (IH1 & IH2 & IH3). unfold input_prompts in *.
    rewrite omap_app, Hp. cbn. split; [by constructor|]. split; [lia|].
    intros H. by rewrite IH3.
  - rewrite Hp. cbn. split; [by repeat constructor|]. split; [lia|done].
  - rewrite Hp. cbn. split; [by repeat constructor|]. split; [lia|done].
Qed.

End Goodbye.

(** X13: a run renders the goodbye message at most once; an interactive
    run whose set-up and welcome text succeed renders it exactly when
    [main] returns, and then as the last event of the run; a run given a
    query never renders it. *)
Theorem goodbye_once_at_the_end (args : Args) (env : environ) (o : Oracle)
    (script : list Oracle) :
  let run := program args env o script in
  (query args = [] → setup_returns o = true → welcome_readable o = true →
     (outcome run = Returned ↔ RenderGoodbye ∈ trace run)
     ∧ (outcome run = Returned →
          ∃ t, trace run = t ++ [RenderGoodbye] ∧ RenderGoodbye ∉ t))
  ∧ (query args ≠ [] → RenderGoodbye ∉ trace run).
Proof.
  intros run. subst run. split.
  - intros Hq Hs Hw.
    destruct (interactive_trace args env o script Hq Hs) as [Ht Ho].
    destruct (interactive_start_run o) as (t1 & r1 & Hst & _ & _ & _ & Hr1).
    rewrite Hw in Hr1. subst r1.
    pose proof (interactive_start_events o) as Hse.
    rewrite Hst in *. cbn [outcome trace fst snd] in *.
    set (kb := get_knowledge_base_id args (module_init env)) in *.
    assert (Hpre : RenderGoodbye ∉ trace (setup args (module_init env) o) ++ t1).
    { rewrite elem_of_app. intros [H|H].
      - by destruct (not_setup_event_not_in _ _ _ RenderGoodbye eq_refl H).
      - rewrite Forall_forall in Hse. by specialize (Hse _ H). }
    rewrite Ht, Ho, app_assoc.
    pose proof (while_true_goodbye kb script) as Hg.
    destruct (outcome (while_true (loop_body kb) script)).
    + destruct Hg as (t & -> & Hn). split.
      * split; [|done]. intros _. rewrite !elem_of_app. right. right. in_trace.
      * intros _. eexists. split; [by rewrite app_assoc|].
        rewrite elem_of_app. by intros [H|H].
    + split; [|done]. split; [done|]. rewrite elem_of_app. by intros [H|H].
    + split; [|done]. split; [done|]. rewrite elem_of_app. by intros [H|H].
  - intros Hq.
    by destruct (silent_events _ (program_one_shot_events args env o script Hq))
      as (_ & H & _).
Qed.

Lemma goodbye_once_at_the_end_witness :
  ∃ t, trace (program (cli [] None) ∅ (typed "") [typed "hello"; typed "Exit"])
       = t ++ [RenderGoodbye] ∧ RenderGoodbye ∉ t.
Proof.
  destruct (goodbye_once_at_the_end (cli [] None) ∅ (typed "")
              [typed "hello"; typed "Exit"]) as [H _].
  destruct (H eq_refl eq_refl eq_refl) as [_ H']. apply H'. reflexivity.
Defined.

(** X14: every iteration of the loop reads exactly one line, always with
    the prompt made of a newline, a tilde and a space; a script of [n]
    iterations yields at most [n] prompts, and exactly [n] when the loop
    is still running after it. *)
Theorem one_prompt_per_iteration (kb : option string) :
  (∀ o, input_prompts (trace (loop_body kb o)) = [nl +:+ "~ "])
  ∧ (∀ script,
       let r := while_true (loop_body kb) script in
       Forall (λ p, p = nl +:+ "~ ") (input_prompts (trace r))
       ∧ length (input_prompts (trace r)) ≤ length script
       ∧ (outcome r = AwaitingInput →
            length (input_prompts (trace r)) = length script)).
Proof.
  split; [intros o; apply loop_body_goodbye|apply while_true_prompts].
Qed.

(** ** Loading the model *)

Section Model.

Implicit Types (kb : option string) (o : Oracle) (s : string).

Lemma program_rest args env o script :
  ∃ rest,
    trace (program args env o script) =
      trace (setup args (module_init env) o) ++ rest
    ∧ Forall (λ ev, is_one_shot_event ev = true ∨ is_start_event ev = true
                    ∨ is_loop_event ev = true) rest.
Proof.
  rewrite program_unfold.
  set (kb := get_knowledge_base_id args (module_init env)).
  pose proof (one_shot_events args kb o) as H1.
  pose proof (interactive_start_events o) as H2.
  pose proof (while_true_events kb script) as H3.
  destruct (outcome (setup args (module_init env) o)).
  2:{ exists []. by rewrite app_nil_r. }
  destruct (query args) as [|x l].
  - destruct (outcome (interactive_start o)); eexists; (split; [reflexivity|]).
    + apply Forall_app. split; (eapply Forall_impl; [eassumption|]); auto.
    + eapply Forall_impl; [eassumption|]. auto.
  - eexists. split; [reflexivity|]. eapply Forall_impl; [eassumption|]. auto.
Qed.

Lemma rest_loads_nothing t :
  Forall (λ ev, is_one_shot_event ev = true ∨ is_start_event ev = true
                ∨ is_loop_event ev = true) t →
  (SetupDebugLogging ∉ t) ∧ loaded_models t = [].
Proof.
  intros H. split.
  - rewrite Forall_forall in H. intros Hin.
    by destruct (H _ Hin) as [?|[?|?]].
  - induction H as [|ev t Hev _ IH]; [done|].
    destruct ev; try exact IH; by destruct Hev as [?|[?|?]].
Qed.

End Model.

(** X16: every run loads the model exactly once, with the provider and the
    configuration of the arguments, as its first call, preceded only by
    the set-up of debug logging, which happens exactly when [--debug] is
    given; the loop never loads it again; and when the loading raises,
    the exception leaves [main] with nothing else done. *)
Theorem model_is_loaded_once_first (args : Args) (env : environ) (o : Oracle)
    (script : list Oracle) :
  let run := program args env o script in
  let pre := if debug args then [SetupDebugLogging] else [] in
  let load := LoadModel (model_provider args) (model_config args) in
  (∃ t, trace run = pre ++ load :: t
        ∧ (SetupDebugLogging ∉ t) ∧ loaded_models t = [])
  ∧ (∀ e, o_load_model o = Raise e → run = (pre ++ [load], Propagated e)).
Proof.
  intros run pre load. subst run pre load. split.
  - destruct (program_rest args env o script) as (rest & -> & Hrest).
    destruct (rest_loads_nothing _ Hrest) as [Hn Hl].
    unfold setup. unfold_M.
    destruct (debug args), (o_load_model o), (o_load_system_prompt o),
      (o_new_agent o) as [[]|]; cbn; eexists; (split; [reflexivity|]);
      unfold loaded_models in *; rewrite ?omap_app, ?Hl; cbn;
      (split; [|done]); intros Hin;
      repeat (apply elem_of_cons in Hin as [Hin|Hin]; [discriminate Hin|]);
      done.
  - intros e He. unfold program, main, setup. unfold_M. rewrite He.
    by destruct (debug args).
Qed.

(** ** Building the agent *)

Section Agent.

Implicit Types (kb : option string) (o : Oracle) (s : string).

(** When [setup] returns, the constructor returned. *)
Lemma setup_built args env o kb :
  outcome (setup args env o) = Ok kb →
  ∃ m p,
    o_load_model o = Ok m ∧ o_load_system_prompt o = Ok p
    ∧ o_new_agent o = Ok ()
    ∧ trace (setup args env o) =
        (if debug args then [SetupDebugLogging] else [])
        ++ [LoadModel (model_provider args) (model_config args);
            LoadSystemPrompt; Uuid4]
        ++ [NewAgent m tools p (o_uuid4 o);
            LogDebug "Agent initialized with %d tools"
              [pretty (length tools)]].
Proof.
  unfold setup. unfold_M.
  destruct (debug args), (o_load_model o) as [m|], (o_load_system_prompt o)
    as [p|], (o_new_agent o) as [[]|]; cbn [trace outcome fst snd];
    intros Ho; try discriminate Ho; by exists m, p.
Qed.

Lemma rest_builds_nothing t m ts p sid :
  Forall (λ ev, is_one_shot_event ev = true ∨ is_start_event ev = true
                ∨ is_loop_event ev = true) t →
  NewAgent m ts p sid ∉ t.
Proof.
  rewrite Forall_forall. intros H Hin. by destruct (H _ Hin) as [?|[?|?]].
Qed.

End Agent.

(** X17: [Agent(...)] is called exactly when the model and the system
    prompt have been loaded, with exactly what those two calls returned,
    the fixed tool list and the session id [uuid4] gave.  An agent exists
    only when that call returns: when the constructor raises, its
    exception leaves [main] at once, the constructor call being the last
    event of the run; and every call on the agent (a tool, the agent
    itself, the storing of a conversation) comes after a constructor call
    that returned, which is the only one of the run. *)
Theorem agent_is_built_from_loaded_parts (args : Args) (env : environ)
    (o : Oracle) (script : list Oracle) :
  let run := program args env o script in
  (∀ m ts p sid,
     NewAgent m ts p sid ∈ trace run ↔
       o_load_model o = Ok m ∧ o_load_system_prompt o = Ok p
       ∧ ts = tools ∧ sid = o_uuid4 o)
  ∧ (∀ m p e,
       o_load_model o = Ok m → o_load_system_prompt o = Ok p →
       o_new_agent o = Raise e →
       ∃ t, run = (t ++ [NewAgent m tools p (o_uuid4 o)], Propagated e)
            ∧ Forall (λ ev, uses_agent ev = false) t)
  ∧ (∀ ev, ev ∈ trace run → uses_agent ev = true →
       ∃ m p t1 t2,
         o_load_model o = Ok m ∧ o_load_system_prompt o = Ok p
         ∧ o_new_agent o = Ok ()
         ∧ trace run = t1 ++ NewAgent m tools p (o_uuid4 o) :: t2
         ∧ ev ∈ t2
         ∧ Forall (λ ev', uses_agent ev' = false) t1
         ∧ (∀ m' ts' p' sid', NewAgent m' ts' p' sid' ∉ t1 ++ t2)).
Proof.
  intros run. subst run. split; [|split].
  - intros m ts p sid.
    destruct (program_rest args env o script) as (rest & -> & Hrest).
    pose proof (rest_builds_nothing rest m ts p sid Hrest) as Hn.
    rewrite elem_of_app. unfold setup. unfold_M.
    destruct (debug args), (o_load_model o) as [m'|], (o_load_system_prompt o)
      as [p'|], (o_new_agent o) as [[]|]; cbn; split;
      try (intros [Hin|Hin]; [|done]; elem_cases Hin; by injection Hin as -> -> -> ->);
      try (intros ([= ->] & [= ->] & -> & ->); left; in_trace);
      try (by intros ([=] & _)); try (by intros (_ & [=] & _)).
  - intros m p e Hm Hp Ha. unfold program, main, setup. unfold_M.
    rewrite Hm, Hp, Ha.
    destruct (debug args); cbn.
    + exists [SetupDebugLogging;
              LoadModel (model_provider args) (model_config args);
              LoadSystemPrompt; Uuid4].
      split; [done|]. by repeat constructor.
    + exists [LoadModel (model_provider args) (model_config args);
              LoadSystemPrompt; Uuid4].
      split; [done|]. by repeat constructor.
  - intros ev Hin Hu.
    destruct (program_rest args env o script) as (rest & Heq & Hrest).
    rewrite Heq in Hin |- *.
    assert (Hs : ev ∉ trace (setup args (module_init env) o)).
    { apply not_setup_event_not_in. by destruct ev. }
    apply elem_of_app in Hin as [Hin|Hin]; [done|]. clear Hs.
    assert (Hn : ∀ m' ts' p' sid', NewAgent m' ts' p' sid' ∉ rest)
      by (intros; by apply rest_builds_nothing).
    destruct (outcome (setup args (module_init env) o)) as [kb|e] eqn:Ho.
    2:{ revert Heq. rewrite program_unfold, Ho. cbn [trace fst]. intros Heq.
        rewrite <-(app_nil_r (trace _)) in Heq at 1.
        apply app_inv_head in Heq. subst rest. by apply elem_of_nil in Hin. }
    destruct (setup_built args (module_init env) o kb Ho)
      as (m & p & Hm & Hp & Ha & Ht).
    exists m, p,
      ((if debug args then [SetupDebugLogging] else [])
       ++ [LoadModel (model_provider args) (model_config args);
           LoadSystemPrompt; Uuid4]),
      (LogDebug "Agent initialized with %d tools" [pretty (length tools)]
       :: rest).
    do 3 (split; [done|]).
    split; [by rewrite Ht, <-!app_assoc|].
    split; [by apply list_elem_of_further|].
    split; [destruct (debug args); by repeat constructor|].
    intros m' ts' p' sid' H. rewrite !elem_of_app in H.
    destruct H as [[H|H]|H].
    + destruct (debug args); elem_cases H.
    + elem_cases H.
    + apply elem_of_cons in H as [H|H]; [discriminate H|by apply Hn in H].
Qed.

Lemma agent_is_built_from_loaded_parts_witness :
  ∃ t, program (cli ["hi"] None) ∅
         {| o_load_model := Ok "model"; o_load_system_prompt := Ok "PROMPT";
            o_uuid4 := "id";
            o_new_agent := Raise (Exn (OtherException "ValueError") "no credentials");
            o_retrieve := Ok (); o_welcome := Ok welcome_ok;
            o_shell := Ok (); o_python_repl := Ok (); o_agent := Ok "answer";
            o_store := Ok (); o_input := Ok "" |} []
       = (t ++ [NewAgent "model" tools "PROMPT" "id"],
          Propagated (Exn (OtherException "ValueError") "no credentials"))
       ∧ Forall (λ ev, uses_agent ev = false) t.
Proof.
  destruct (agent_is_built_from_loaded_parts (cli ["hi"] None) ∅
    {| o_load_model := Ok "model"; o_load_system_prompt := Ok "PROMPT";
       o_uuid4 := "id";
       o_new_agent := Raise (Exn (OtherException "ValueError") "no credentials");
       o_retrieve := Ok (); o_welcome := Ok welcome_ok;
       o_shell := Ok (); o_python_repl := Ok (); o_agent := Ok "answer";
       o_store := Ok (); o_input := Ok "" |} []) as (_ & H & _).
  apply (H "model" "PROMPT" (Exn (OtherException "ValueError") "no credentials"));
    reflexivity.
Defined.

(** ** What is printed when a call fails *)

(** X18: an exception deriving from [Exception] is reported exactly once,
    and with the words of the block it came from: [Shell command
    execution error: ] after the echo of the command for a shell line,
    [Python execution error: ] for a python line, and a newline and
    [Error: ] for a forwarded line whose agent call fails (not an
    [EOFError]); each time followed by [str(e)], and the loop continues. *)
Theorem error_messages (kb : option string) (o : Oracle) (s : string) (e : exn) :
  o_input o = Ok s → is_Exception e = true →
  (PyStr.startswith "!" s = true → o_shell o = Raise e →
     loop_body kb o =
       ([GetUserInput (nl +:+ "~ "); PrintLine ("$ " +:+ PyStr.from1 s);
         ToolShell (PyStr.from1 s) s;
         PrintLine ("Shell command execution error: " +:+ exn_str e)],
        Ok Continue))
  ∧ (PyStr.startswith ">" s = true → o_python_repl o = Raise e →
     loop_body kb o =
       ([GetUserInput (nl +:+ "~ ");
         ToolPythonRepl (PyStr.strip (PyStr.from1 s)) s;
         PrintLine ("Python execution error: " +:+ exn_str e)],
        Ok Continue))
  ∧ (PyStr.lower s ∉ ["exit"; "quit"] →
     PyStr.startswith "!" s = false → PyStr.startswith ">" s = false →
     PyStr.strip s ≠ "" → forwarding_prep_returns kb o = true →
     o_agent o = Raise e → exn_class e ≠ EOFError →
     ∃ t, loop_body kb o =
            (t ++ [PrintLine (nl +:+ "Error: " +:+ exn_str e)], Ok Continue)
          ∧ agent_prompts t = [s] ∧ (∀ m, PrintLine m ∉ t)).
Proof.
  intros Hi Hex. split; [|split].
  - intros Hb Hs. rewrite loop_body_eq, try_block_eq, Hi.
    rewrite (bool_decide_eq_false_2 _ (bang_not_exit _ Hb)).
    unfold after_exit_test. by rewrite Hb, run_shell_eq, Hs, Hex.
  - intros Hg Hs. rewrite loop_body_eq, try_block_eq, Hi.
    rewrite (bool_decide_eq_false_2 _ (gt_not_exit _ Hg)).
    assert (Hb : PyStr.startswith "!" s = false).
    { destruct (PyStr.startswith "!" s) eqn:E; [|done].
      apply bang_not_gt in E. congruence. }
    unfold after_exit_test. by rewrite Hb, Hg, run_python_eq, Hs, Hex.
  - intros Hx Hb Hg Hs Hprep Ha Hne.
    assert (Hint : is_interrupt e = false).
    { unfold is_interrupt, is_Exception in *. by destruct (exn_class e). }
    rewrite loop_body_eq, try_block_eq, Hi, (bool_decide_eq_false_2 _ Hx).
    unfold after_exit_test. rewrite Hb, Hg, (proj2 (truthy_true _) Hs).
    assert (Hf : ∃ t, forward kb s o = (t, Raise e) ∧ agent_prompts t = [s]
                      ∧ (∀ m, PrintLine m ∉ t)).
    { revert Hprep. forward_cases kb o; try discriminate Ha;
        intros Hprep; try discriminate Hprep;
        injection Ha as ->; eexists; (split; [reflexivity|]);
        (split; [done|]); intros m' Hin; cbn in Hin; elem_cases Hin. }
    destruct Hf as (t & -> & Hp & Hn). rewrite Hint, Hex.
    exists (GetUserInput (nl +:+ "~ ") :: t). split; [done|]. split; [done|].
    intros m' [Hin|Hin]%elem_of_cons; [discriminate Hin|by apply Hn in Hin].
Qed.

Lemma error_messages_witness :
  loop_body None
    (sample (Ok "!false") (Raise (Exn (OtherException "RuntimeError") "exit 1"))
       (Ok ()) (Ok "answer"))
  = ([GetUserInput (nl +:+ "~ "); PrintLine "$ false"; ToolShell "false" "!false";
      PrintLine "Shell command execution error: exit 1"], Ok Continue).
Proof.
  destruct (error_messages None
              (sample (Ok "!false")
                 (Raise (Exn (OtherException "RuntimeError") "exit 1"))
                 (Ok ()) (Ok "answer"))
              "!false" (Exn (OtherException "RuntimeError") "exit 1")
              eq_refl eq_refl) as [H _].
  exact (H eq_refl eq_refl).
Defined.

(** ** The code handed to python_repl, and the one-shot query *)

Section Texts.

Implicit Types (kb : option string) (o : Oracle) (s : string).

Lemma rstrip_cons c s :
  PyStr.rstrip (String c s)
  = match PyStr.rstrip s with
    | EmptyString => if PyStr.isspace c then EmptyString else String c EmptyString
    | r' => String c r'
    end.
Proof. reflexivity. Qed.

Lemma rstrip_idempotent s : PyStr.rstrip (PyStr.rstrip s) = PyStr.rstrip s.
Proof.
  induction s as [|c r IH]; [done|]. rewrite (rstrip_cons c r).
  destruct (PyStr.rstrip r) as [|c' r'] eqn:Hr.
  - destruct (PyStr.isspace c) eqn:Hc; [done|]. cbn. by rewrite Hc.
  - by rewrite rstrip_cons, IH.
Qed.

Lemma lstrip_head s :
  PyStr.lstrip s = ""
  ∨ ∃ c r, PyStr.lstrip s = String c r ∧ PyStr.isspace c = false.
Proof.
  induction s as [|c r IH]; [by left|]. cbn [PyStr.lstrip].
  destruct (PyStr.isspace c) eqn:Hc; [done|]. right. by exists c, r.
Qed.

Lemma rstrip_keeps_head c r :
  PyStr.isspace c = false → ∃ r', PyStr.rstrip (String c r) = String c r'.
Proof.
  intros Hc. cbn [PyStr.rstrip]. rewrite Hc.
  destruct (PyStr.rstrip r); by eexists.
Qed.

Lemma strip_idempotent s : PyStr.strip (PyStr.strip s) = PyStr.strip s.
Proof.
  unfold PyStr.strip. destruct (lstrip_head s) as [->|(c & r & -> & Hc)]; [done|].
  destruct (rstrip_keeps_head c r Hc) as [r' Hr]. rewrite Hr.
  cbn [PyStr.lstrip]. rewrite Hc, <-Hr. apply rstrip_idempotent.
Qed.

Lemma append_assoc' (a b c : string) : (a +:+ b) +:+ c = a +:+ b +:+ c.
Proof.
  induction a as [|x a IH]; [done|].
  change (String x ((a +:+ b) +:+ c) = String x (a +:+ b +:+ c)).
  by rewrite IH.
Qed.

Lemma join_app sep (l1 l2 : list string) :
  l1 ≠ [] → l2 ≠ [] →
  PyStr.join sep (l1 ++ l2) = PyStr.join sep l1 +:+ sep +:+ PyStr.join sep l2.
Proof.
  intros H1 H2. induction l1 as [|x l1 IH]; [done|].
  destruct l1 as [|y l1].
  - cbn. by destruct l2.
  - change (PyStr.join sep ((x :: y :: l1) ++ l2))
      with (x +:+ sep +:+ PyStr.join sep ((y :: l1) ++ l2)).
    rewrite IH by done.
    change (PyStr.join sep (x :: y :: l1))
      with (x +:+ sep +:+ PyStr.join sep (y :: l1)).
    by rewrite !append_assoc'.
Qed.

End Texts.

(** X19: a python line runs python_repl once, on code that is already
    stripped: stripping it again changes nothing, and it is empty or
    begins with a character that is not white space. *)
Theorem python_code_is_stripped (kb : option string) (o : Oracle) (s : string) :
  o_input o = Ok s → PyStr.startswith ">" s = true →
  ∃ code, python_codes (trace (loop_body kb o)) = [code]
          ∧ PyStr.strip code = code
          ∧ (code = "" ∨ ∃ c r, code = String c r ∧ PyStr.isspace c = false).
Proof.
  intros Hi Hg. exists (PyStr.strip (PyStr.from1 s)). split; [|split].
  - pose proof (loop_body_calls kb o) as Hc.
    rewrite (try_block_calls _ _ _ Hi (gt_not_exit _ Hg)) in Hc.
    assert (Hb : PyStr.startswith "!" s = false).
    { destruct (PyStr.startswith "!" s) eqn:E; [|done].
      apply bang_not_gt in E. congruence. }
    unfold after_exit_test in Hc. rewrite Hb, Hg, run_python_calls in Hc.
    by injection Hc as _ -> _ _ _.
  - apply strip_idempotent.
  - unfold PyStr.strip.
    destruct (lstrip_head (PyStr.from1 s)) as [->|(c & r & -> & Hc)]; [by left|].
    right. destruct (rstrip_keeps_head c r Hc) as [r' ->]. by exists c, r'.
Qed.

Lemma python_code_is_stripped_witness :
  ∃ code, python_codes (trace (loop_body None (typed ">  print(1)  "))) = [code]
          ∧ PyStr.strip code = code.
Proof.
  destruct (python_code_is_stripped None (typed ">  print(1)  ") ">  print(1)  "
              eq_refl eq_refl) as (code & H1 & H2 & _).
  by exists code.
Defined.

(** X20: a run given a query depends on the positional arguments only
    through their join with single spaces: two argument lists with the
    same join give the same run, so quoting several words as one argument
    changes nothing. *)
Theorem query_is_the_joined_arguments :
  (∀ q1 q2 kbid provider config dbg env o script,
     q1 ≠ [] → q2 ≠ [] → PyStr.join " " q1 = PyStr.join " " q2 →
     program {| query := q1; knowledge_base_id := kbid;
                model_provider := provider; model_config := config;
                debug := dbg |} env o script
     = program {| query := q2; knowledge_base_id := kbid;
                  model_provider := provider; model_config := config;
                  debug := dbg |} env o script)
  ∧ (∀ l1 l2, l1 ≠ [] → l2 ≠ [] →
       PyStr.join " " (l1 ++ l2)
       = PyStr.join " " [PyStr.join " " l1; PyStr.join " " l2]).
Proof.
  split.
  - intros q1 q2 kbid provider config dbg env o script H1 H2 Hj.
    unfold program, main, setup, dispatch, one_shot, get_knowledge_base_id.
    cbn [query knowledge_base_id model_provider model_config debug].
    destruct q1 as [|x1 q1]; [done|]. destruct q2 as [|x2 q2]; [done|].
    by rewrite Hj.
  - intros l1 l2 H1 H2. by rewrite join_app.
Qed.

Lemma query_is_the_joined_arguments_witness :
  program (cli ["what is"; "new"] None) ∅ (typed "") []
  = program (cli ["what"; "is"; "new"] None) ∅ (typed "") [].
Proof.
  destruct query_is_the_joined_arguments as [H _].
  apply (H ["what is"; "new"] ["what"; "is"; "new"]);
    [discriminate|discriminate|reflexivity].
Defined.
